(** * RAG proxy and search tool: a shallow embedding

    The development follows the two Python modules of the repository:

    - [Documents]  embeds [app/api/v1/documents.py] (identifier
      normalizer, service token issuer, RAG request helper and the three
      proxy endpoints);
    - [RagSearch]  embeds [app/core/langgraph/tools/rag_search.py] (the
      agent-facing search tool: token issuer, payload composition,
      result formatter and the asynchronous entry point).

    [Py] holds the part of Python the code relies on: JSON values as the
    objects [json] produces, truthiness, [dict.get], the [or] operator,
    exceptions, and the [str] methods used by the code.  A Python [str]
    is a [string] whose characters are code points below 256; the
    methods [strip] and [lower] are given on that range.  [Clock] holds
    the [datetime] arithmetic of the two token issuers. *)

From Stdlib Require Import ZArith NArith List String Ascii Bool Lia.
From Stdlib Require Import DecimalString DecimalNat DecimalFacts.
Import ListNotations.

Local Open Scope string_scope.
Local Open Scope Z_scope.

(* ================================================================== *)
(** * Python values and builtins *)
(* ================================================================== *)

Module Py.

(** A binary64 value: signed zero, [(-1)^neg * mant * 2^exp], an
    infinity, or a NaN.  Only its truthiness is inspected here; its
    rendering is left to the formatting primitives. *)
Inductive pyfloat : Type :=
| FZero (neg : bool)
| FFinite (neg : bool) (mant : positive) (exp : Z)
| FInf (neg : bool)
| FNaN.

(** The objects [response.json()] can produce.  A [dict] keeps its
    insertion order, so it is an association list. *)
#[warnings="-register-all"]
Inductive pyobj : Type :=
| PNone
| PBool (b : bool)
| PInt (z : Z)
| PFloat (f : pyfloat)
| PStr (s : string)
| PList (l : list pyobj)
| PDict (d : list (string * pyobj)).

Definition dict : Type := list (string * pyobj).

(** Exceptions, with the part of the class hierarchy the handlers of
    the code distinguish: [HTTPStatusError] and [TimeoutException] are
    subclasses of [httpx.HTTPError]; [HTTPErrorOther] stands for the
    remaining subclasses; [ValueError] covers [json.JSONDecodeError];
    [HTTPException] is FastAPI's. *)
Inductive exn : Type :=
| HTTPStatusError (status_code : Z) (text : string)
| TimeoutException (msg : string)
| HTTPErrorOther (msg : string)
| ValueError (msg : string)
| HTTPException (status_code : Z) (detail : string)
| TypeError
| AttributeError
| OverflowError
| IndexError
| NotImplementedError (msg : string)
| OtherError (name : string).

Inductive result (A : Type) : Type :=
| Ok (a : A)
| Raise (e : exn).
Arguments Ok {A} a.
Arguments Raise {A} e.

Definition bind {A B : Type} (r : result A) (k : A -> result B) : result B :=
  match r with
  | Ok a => k a
  | Raise e => Raise e
  end.

Notation "x <- r ;; k" := (bind r (fun x => k))
  (at level 61, r at next level, right associativity).

(** ** Truthiness, [or], [dict.get] *)

Definition str_truthy (s : string) : bool :=
  match s with
  | EmptyString => false
  | String _ _ => true
  end.

Definition float_truthy (f : pyfloat) : bool :=
  match f with
  | FZero _ => false
  | _ => true
  end.

Definition truthy (v : pyobj) : bool :=
  match v with
  | PNone => false
  | PBool b => b
  | PInt z => negb (z =? 0)
  | PFloat f => float_truthy f
  | PStr s => str_truthy s
  | PList l => match l with [] => false | _ :: _ => true end
  | PDict d => match d with [] => false | _ :: _ => true end
  end.

(** [a or b] *)
Definition py_or (a b : pyobj) : pyobj := if truthy a then a else b.

(** [d.get(key)], [None] when the key is missing. *)
Fixpoint dict_get (d : dict) (key : string) : pyobj :=
  match d with
  | [] => PNone
  | (k, v) :: rest => if String.eqb k key then v else dict_get rest key
  end.

(** [key in d] *)
Fixpoint dict_has (d : dict) (key : string) : bool :=
  match d with
  | [] => false
  | (k, _) :: rest => String.eqb k key || dict_has rest key
  end.

(** [d[key] = v]: replaces in place, or appends a new key. *)
Fixpoint dict_set (d : dict) (key : string) (v : pyobj) : dict :=
  match d with
  | [] => [(key, v)]
  | (k, w) :: rest =>
      if String.eqb k key then (k, v) :: rest else (k, w) :: dict_set rest key v
  end.

(** [x or default] for an optional string: [None] and [""] are falsy. *)
Definition opt_truthy (o : option string) : bool :=
  match o with
  | Some s => str_truthy s
  | None => false
  end.

Definition opt_or (a b : option string) : option string :=
  if opt_truthy a then a else b.

(** [x or default], the default being a string. *)
Definition or_default (o : option string) (default : string) : string :=
  match o with
  | Some s => if str_truthy s then s else default
  | None => default
  end.

(** Lookup in a [dict] from strings to strings (headers, form fields). *)
Fixpoint assoc_get (l : list (string * string)) (key : string) : option string :=
  match l with
  | [] => None
  | (k, v) :: rest => if String.eqb k key then Some v else assoc_get rest key
  end.

(** ** Characters *)

Definition code (c : ascii) : N := N_of_ascii c.

Definition in_range (lo hi : N) (c : ascii) : bool :=
  ((lo <=? code c) && (code c <=? hi))%N.

(** [str.isspace] on one character (code points below 256). *)
Definition isspace (c : ascii) : bool :=
  in_range 9 13 c || in_range 28 32 c || (code c =? 133)%N || (code c =? 160)%N.

(** [str.lower] on one character: A-Z, and the Latin-1 capitals
    U+00C0..U+00DE except the multiplication sign U+00D7. *)
Definition lower_char (c : ascii) : ascii :=
  if in_range 65 90 c || (in_range 192 222 c && negb (code c =? 215)%N)
  then ascii_of_N (code c + 32)
  else c.

Definition is_char (x : ascii) (c : ascii) : bool := Ascii.eqb c x.

(** ** [str] methods, on the list of characters *)

Definition chars (s : string) : list ascii := list_ascii_of_string s.
Definition of_chars (l : list ascii) : string := string_of_list_ascii l.

Fixpoint lstrip_by (p : ascii -> bool) (l : list ascii) : list ascii :=
  match l with
  | [] => []
  | c :: t => if p c then lstrip_by p t else l
  end.

Fixpoint rstrip_by (p : ascii -> bool) (l : list ascii) : list ascii :=
  match l with
  | [] => []
  | c :: t =>
      match rstrip_by p t with
      | [] => if p c then [] else [c]
      | t' => c :: t'
      end
  end.

Definition strip_by (p : ascii -> bool) (l : list ascii) : list ascii :=
  rstrip_by p (lstrip_by p l).

(** [s.strip()] *)
Definition str_strip (s : string) : string := of_chars (strip_by isspace (chars s)).

(** [s.strip(x)] and [s.rstrip(x)] for a one-character argument *)
Definition str_strip_char (x : ascii) (s : string) : string :=
  of_chars (strip_by (is_char x) (chars s)).

Definition str_rstrip_char (x : ascii) (s : string) : string :=
  of_chars (rstrip_by (is_char x) (chars s)).

(** [s.lower()] *)
Definition str_lower (s : string) : string := of_chars (map lower_char (chars s)).

(** [s.startswith(x)] for a one-character argument *)
Definition str_startswith_char (x : ascii) (s : string) : bool :=
  match s with
  | String c _ => Ascii.eqb c x
  | EmptyString => false
  end.

(** [sep.join(parts)] *)
Fixpoint str_join (sep : string) (parts : list string) : string :=
  match parts with
  | [] => ""
  | [p] => p
  | p :: rest => p ++ sep ++ str_join sep rest
  end.

(** [s.split()]: the maximal runs of non-whitespace characters. *)
Fixpoint split_ws (cur : list ascii) (l : list ascii) : list string :=
  match l with
  | [] => match cur with [] => [] | _ => [of_chars (rev cur)] end
  | c :: t =>
      if isspace c
      then match cur with
           | [] => split_ws [] t
           | _ => of_chars (rev cur) :: split_ws [] t
           end
      else split_ws (c :: cur) t
  end.

Definition str_split (s : string) : list string := split_ws [] (chars s).

(** [str(n)] for a non-negative and for any integer *)
Definition str_of_nat (n : nat) : string := NilEmpty.string_of_uint (Nat.to_uint n).
Definition str_of_Z (z : Z) : string := NilZero.string_of_int (Z.to_int z).

End Py.

Import Py.

(* ================================================================== *)
(** * Configuration *)
(* ================================================================== *)

(** [app.core.config.settings]: read-only inputs of both modules.  The
    fields that the code tests with [not] or [or] are optional strings. *)
Record Settings : Type := {
  RAG_BASE_URL : string;
  RAG_QUERY_ENDPOINT : string;
  RAG_QUERY_MULTIPLE_ENDPOINT : string;
  RAG_DEFAULT_FILE_IDS : list string;
  RAG_TOP_K : Z;
  RAG_ENTITY_ID : option string;
  RAG_JWT_SECRET : option string;
  RAG_JWT_ALGORITHM : string;
  RAG_JWT_TTL_SECONDS : Z;
  RAG_SERVICE_SUBJECT : option string
}.

(** The JWT claim set handed to [jose.jwt.encode].  A time claim is an
    integer number of seconds (documents.py) or a [datetime]
    (rag_search.py), the latter counted in microseconds since the epoch. *)
Inductive time_claim : Type :=
| Timestamp (seconds : Z)
| Datetime (micros : Z).

Record jwt_payload : Type := {
  sub : string;
  iat : time_claim;
  exp : time_claim
}.

Definition micros_per_second : Z := 1000000.

(* ================================================================== *)
(** * [datetime] and [timedelta] *)
(* ================================================================== *)

(** An aware [datetime] in UTC is its count of microseconds since the
    epoch, a [timedelta] a count of microseconds. *)
Module Clock.

(** [datetime.min] and [datetime.max], read in UTC. *)
Definition datetime_min : Z := -62135596800000000.
Definition datetime_max : Z := 253402300799999999.

(** [timedelta(seconds=s)] for an integer [s]: the days of the
    normalised delta have at most nine digits. *)
Definition timedelta_seconds (s : Z) : result Z :=
  if Z.abs (s / 86400) <=? 999999999
  then Ok (s * micros_per_second)
  else Raise OverflowError.

(** [dt + delta]: the sum is a date of the years 1 to 9999, or the
    addition raises. *)
Definition datetime_add (dt delta : Z) : result Z :=
  let sum := dt + delta in
  if (datetime_min <=? sum) && (sum <=? datetime_max)
  then Ok sum
  else Raise OverflowError.

(** [dt + timedelta(seconds=ttl)] is a [datetime]: both steps are
    within their ranges. *)
Definition expiry_in_range (dt ttl : Z) : Prop :=
  Z.abs (ttl / 86400) <= 999999999 /\
  datetime_min <= dt + ttl * micros_per_second <= datetime_max.

(** ** [int(dt.timestamp())]

    [timestamp()] divides the microsecond count by [10**6] with [/]:
    the result is the binary64 number nearest to the quotient, ties to
    even.  [int] then drops the fraction.  The quotients of the code are
    within the normal range of binary64. *)

(** The [k] with [2^52 <= n / d * 2^k < 2^53], for positive [n], [d]. *)
Definition binary64_scale (n d : Z) : Z :=
  let i := n / d in
  if 0 <? i then 52 - Z.log2 i
  else
    let j := Z.log2 d - Z.log2 n in
    52 + (if d <=? n * 2 ^ j then j else j + 1).

(** The 53-bit mantissa of [n / d] at scale [k]. *)
Definition binary64_mantissa (n d k : Z) : Z :=
  let num := if 0 <=? k then n * 2 ^ k else n in
  let den := if 0 <=? k then d else d * 2 ^ (- k) in
  let q := num / den in
  let r := num mod den in
  if (den <? 2 * r) || ((den =? 2 * r) && Z.odd q) then q + 1 else q.

(** [int(n / d)] for positive [n] and [d]. *)
Definition int_of_quotient (n d : Z) : Z :=
  let k := binary64_scale n d in
  let m := binary64_mantissa n d k in
  if 0 <=? k then m / 2 ^ k else m * 2 ^ (- k).

(** [int(n / d)] for a positive [d]; [int] rounds towards zero. *)
Definition int_true_div (n d : Z) : Z :=
  match n with
  | 0 => 0
  | Zpos _ => int_of_quotient n d
  | Zneg _ => - int_of_quotient (- n) d
  end.

Definition timestamp_int (dt : Z) : Z := int_true_div dt micros_per_second.

End Clock.

Import Clock.

(** ** The HTTP exchange, as [httpx] presents it *)

Record upload_part : Type := {
  part_filename : option string;
  part_bytes : string;
  part_content_type : string
}.

Record request : Type := {
  req_method : string;
  req_url : string;
  req_json : option dict;
  req_data : option (list (string * string));
  req_files : option (list (string * upload_part));
  req_headers : list (string * string)
}.

(** [content_type] is [response.headers.get("content-type")];
    [json_body] is what [response.json()] does on this response. *)
Record response : Type := {
  status_code : Z;
  reason_phrase : string;
  text : string;
  content_type : option string;
  json_body : result pyobj
}.

(* ================================================================== *)
(** * app/api/v1/documents.py *)
(* ================================================================== *)

Module Documents.

(** ** [_normalize_file_id] *)

(** The character class [[a-z0-9_\-]]. *)
Definition is_id_char (c : ascii) : bool :=
  in_range 97 122 c || in_range 48 57 c || is_char "_" c || is_char "-" c.

(** [re.sub(r"[^a-z0-9_\-]", "_", s)] *)
Definition replace_unsafe (l : list ascii) : list ascii :=
  map (fun c => if is_id_char c then c else "_"%char) l.

(** [re.sub(r"_+", "_", s)]: an underscore followed by another one is
    dropped, so each run keeps its last underscore only. *)
Fixpoint collapse_underscores (l : list ascii) : list ascii :=
  match l with
  | [] => []
  | c :: t =>
      match t with
      | c' :: _ =>
          if is_char "_" c && is_char "_" c'
          then collapse_underscores t
          else c :: collapse_underscores t
      | [] => [c]
      end
  end.

(** Lines 32-34: strip, lower, the two substitutions, strip of ["_"]. *)
Definition clean_chars (l : list ascii) : list ascii :=
  let cleaned := map lower_char (strip_by isspace l) in
  let cleaned := replace_unsafe cleaned in
  strip_by (is_char "_") (collapse_underscores cleaned).

Definition clean (value : string) : string := of_chars (clean_chars (chars value)).

(** [uuid.uuid4().hex]: the 128-bit value in 32 lowercase hexadecimal
    digits, most significant first. *)
Definition hex_digits : list ascii := chars "0123456789abcdef".

Definition hex_digit (n : N) : ascii := nth (N.to_nat (n mod 16)) hex_digits "0"%char.

Fixpoint hex_fixed (width : nat) (n : N) : list ascii :=
  match width with
  | O => []
  | S w => hex_fixed w (n / 16) ++ [hex_digit n]
  end.

Definition uuid_hex (uuid4 : N) : list ascii := hex_fixed 32 (uuid4 mod 2 ^ 128).

(** The random identifier of line 41: ["doc_"] and [hex[:8]]. *)
Definition generated_id (uuid4 : N) : string :=
  "doc_" ++ of_chars (firstn 8 (uuid_hex uuid4)).

(** [uuid4] is the value [uuid.uuid4()] draws when the last line runs. *)
Definition _normalize_file_id (settings : Settings) (uuid4 : N)
    (value : option string) : string :=
  let fallback :=
    match RAG_DEFAULT_FILE_IDS settings with
    | first :: _ => first
    | [] => generated_id uuid4
    end in
  match value with
  | Some v =>
      if str_truthy v then
        let cleaned := clean v in
        if str_truthy cleaned then cleaned else fallback
      else fallback
  | None => fallback
  end.

(** [re.fullmatch(r"[a-z0-9_-]+", s)] *)
Definition matches_id_pattern (s : string) : bool :=
  str_truthy s && forallb is_id_char (chars s).

(** No two consecutive characters of [l] both satisfy [p]. *)
Fixpoint no_repeat (p : ascii -> bool) (l : list ascii) : bool :=
  match l with
  | [] => true
  | c :: t =>
      match t with
      | c' :: _ => negb (p c && p c') && no_repeat p t
      | [] => true
      end
  end.

Definition starts_with (p : ascii -> bool) (l : list ascii) : bool :=
  match l with
  | c :: _ => p c
  | [] => false
  end.

Fixpoint ends_with (p : ascii -> bool) (l : list ascii) : bool :=
  match l with
  | [] => false
  | c :: t =>
      match t with
      | [] => p c
      | _ :: _ => ends_with p t
      end
  end.

(** The separators of an identifier, as the data model lists them. *)
Definition is_separator (c : ascii) : bool := is_char "_" c || is_char "-" c.

(** No repeated, leading or trailing character of the class [p]. *)
Definition tidy (p : ascii -> bool) (s : string) : bool :=
  no_repeat p (chars s) && negb (starts_with p (chars s)) && negb (ends_with p (chars s)).

(** The shape of a cleaned identifier, on its characters. *)
Definition canonical_chars (l : list ascii) : bool :=
  forallb is_id_char l && no_repeat (is_char "_") l
  && negb (starts_with (is_char "_") l) && negb (ends_with (is_char "_") l).

Definition is_hex (c : ascii) : bool := in_range 48 57 c || in_range 97 102 c.

(** A string that cleaning leaves as it is, and that is not empty. *)
Definition canonical (s : string) : Prop := s <> "" /\ clean s = s.

(** The input is present and its cleaned form is not empty (the tests of
    lines 31 and 35). *)
Definition cleans_to_nonempty (value : option string) : bool :=
  match value with
  | Some v => str_truthy v && str_truthy (clean v)
  | None => false
  end.

(** The first configured default identifier, when there is one, is canonical. *)
Definition defaults_canonical (settings : Settings) : Prop :=
  match RAG_DEFAULT_FILE_IDS settings with
  | first :: _ => canonical first
  | [] => True
  end.

Section Service.

(** [jose.jwt.encode(payload, secret, algorithm=...)] and the network
    ([httpx.AsyncClient.request], with the upstream's answer). *)
Variable jwt_encode : jwt_payload -> string -> string -> result string.
Variable http_send : request -> result response.

(** ** [_generate_rag_jwt]; [now] is [datetime.now(UTC)] in microseconds. *)

(** Lines 51-56: the expiry and the claim set, both built before the
    [try]. *)
Definition rag_jwt_payload (settings : Settings) (now : Z) : result jwt_payload :=
  delta <- timedelta_seconds (Z.max 30 (RAG_JWT_TTL_SECONDS settings)) ;;
  expires <- datetime_add now delta ;;
  Ok {| sub := or_default (RAG_SERVICE_SUBJECT settings) "agent_service";
        iat := Timestamp (timestamp_int now);
        exp := Timestamp (timestamp_int expires) |}.

(** The [try] returns the token; [except Exception] logs and returns
    [None].  What lines 51-56 raise is outside the [try]. *)
Definition _generate_rag_jwt (settings : Settings) (now : Z) : result (option string) :=
  match RAG_JWT_SECRET settings with
  | Some secret =>
      if str_truthy secret then
        payload <- rag_jwt_payload settings now ;;
        match jwt_encode payload secret (RAG_JWT_ALGORITHM settings) with
        | Ok token => Ok (Some token)
        | Raise _ => Ok None
        end
      else Ok None
  | None => Ok None
  end.

Definition _rag_headers (settings : Settings) (now : Z)
    : result (list (string * string)) :=
  issued <- _generate_rag_jwt settings now ;;
  match issued with
  | Some token =>
      Ok (if str_truthy token then [("Authorization", "Bearer " ++ token)] else [])
  | None => Ok []
  end.

(** ** [_rag_request] *)
Definition rag_request_of (settings : Settings) (method path : string)
    (data : option (list (string * string)))
    (files : option (list (string * upload_part)))
    (headers : list (string * string)) : request :=
  let base_url := str_rstrip_char "/" (RAG_BASE_URL settings) in
  {| req_method := method;
     req_url := base_url ++ path;
     req_json := None;
     req_data := data;
     req_files := files;
     req_headers := headers |}.

(** [response.headers.get("content-type", "").startswith("application/json")] *)
Definition announces_json (r : response) : bool :=
  String.prefix "application/json" (or_default (content_type r) "").

(** Lines 85-96: what [_rag_request] makes of the response. *)
Definition rag_response (r : response) : result pyobj :=
  if 400 <=? status_code r then
    let detail := text r in
    Raise (HTTPException (status_code r)
             ("RAG request failed: " ++ (if str_truthy detail then detail else reason_phrase r)))
  else if announces_json r
  then json_body r
  else Ok (PStr (text r)).

Definition _rag_request (settings : Settings) (now : Z) (method path : string)
    (data : option (list (string * string)))
    (files : option (list (string * upload_part))) : result pyobj :=
  headers <- _rag_headers settings now ;;
  r <- http_send (rag_request_of settings method path data files headers) ;;
  rag_response r.

(** ** The three endpoints *)

Record UploadFile : Type := {
  filename : option string;
  file_bytes : string;
  file_content_type : option string
}.

(** Lines 112-116: the form fields of an upload. *)
Definition upload_payload (settings : Settings) (resolved_file_id : string)
    (entity_id : option string) : list (string * string) :=
  let resolved_entity := opt_or entity_id (RAG_ENTITY_ID settings) in
  ("file_id", resolved_file_id) ::
  (if opt_truthy resolved_entity then [("entity_id", or_default resolved_entity "")] else []).

(** Lines 118-119: the multipart part. *)
Definition upload_files (file : UploadFile) : list (string * upload_part) :=
  [("file", {| part_filename := filename file;
               part_bytes := file_bytes file;
               part_content_type :=
                 or_default (file_content_type file) "application/octet-stream" |})].

Definition upload_document (settings : Settings) (now : Z) (uuid4 : N)
    (file : UploadFile) (file_id entity_id : option string) : result pyobj :=
  let resolved_file_id := _normalize_file_id settings uuid4 file_id in
  rag <- _rag_request settings now "POST" "/embed"
           (Some (upload_payload settings resolved_file_id entity_id))
           (Some (upload_files file)) ;;
  Ok (PDict [("message", PStr "Document uploaded successfully");
             ("file_id", PStr resolved_file_id);
             ("rag_response", rag)]).

Definition list_document_ids (settings : Settings) (now : Z) : result pyobj :=
  rag <- _rag_request settings now "GET" "/ids" None None ;;
  Ok (PDict [("ids", rag)]).

Definition preview_path (resolved_file_id : string) : string :=
  "/documents/" ++ resolved_file_id ++ "/context".

Definition preview_document (settings : Settings) (now : Z) (uuid4 : N)
    (file_id : string) : result pyobj :=
  let resolved_file_id := _normalize_file_id settings uuid4 (Some file_id) in
  rag <- _rag_request settings now "GET" (preview_path resolved_file_id) None None ;;
  Ok (PDict [("file_id", PStr resolved_file_id); ("chunks", rag)]).

(** The three operations, and the endpoint of each. *)
Inductive operation : Type :=
| Upload (file : UploadFile) (file_id entity_id : option string)
| ListIds
| Preview (file_id : string).

Definition endpoint (settings : Settings) (now : Z) (uuid4 : N) (op : operation)
    : result pyobj :=
  match op with
  | Upload file file_id entity_id => upload_document settings now uuid4 file file_id entity_id
  | ListIds => list_document_ids settings now
  | Preview file_id => preview_document settings now uuid4 file_id
  end.

(** The request each operation hands to the HTTP client; none when
    [_rag_headers] raises, which then leaves the endpoint. *)
Definition endpoint_request (settings : Settings) (now : Z) (uuid4 : N) (op : operation)
    : result request :=
  headers <- _rag_headers settings now ;;
  Ok match op with
     | Upload file file_id entity_id =>
         rag_request_of settings "POST" "/embed"
           (Some (upload_payload settings (_normalize_file_id settings uuid4 file_id)
                    entity_id))
           (Some (upload_files file)) headers
     | ListIds => rag_request_of settings "GET" "/ids" None None headers
     | Preview file_id =>
         rag_request_of settings "GET"
           (preview_path (_normalize_file_id settings uuid4 (Some file_id)))
           None None headers
     end.

End Service.

(** The failure kinds of the RAG client: the upstream answered with a
    status of 400 or more; the transport raised (timeout, connection
    error); a body announced as JSON did not parse. *)
Inductive client_failure : Type :=
| StatusFailure (status : Z) (body reason : string)
| TransportFailure (e : exn)
| ParseFailure (e : exn).

Definition failure_of (outcome : result response) : option client_failure :=
  match outcome with
  | Raise e => Some (TransportFailure e)
  | Ok r =>
      if 400 <=? status_code r
      then Some (StatusFailure (status_code r) (text r) (reason_phrase r))
      else if announces_json r
      then match json_body r with
           | Raise e => Some (ParseFailure e)
           | Ok _ => None
           end
      else None
  end.

(** What the caller of an endpoint sees of a failure. *)
Definition surfaced (f : client_failure) : exn :=
  match f with
  | StatusFailure status body reason =>
      HTTPException status
        ("RAG request failed: " ++ (if str_truthy body then body else reason))
  | TransportFailure e => e
  | ParseFailure e => e
  end.

Definition is_http_error (e : exn) : bool :=
  match e with
  | HTTPException _ _ => true
  | _ => false
  end.

(** The body [_rag_request] returns for a response below 400. *)
Definition passed_body (r : response) : result pyobj :=
  if announces_json r then json_body r else Ok (PStr (text r)).

(** What each endpoint wraps the upstream body in. *)
Definition wrapped (settings : Settings) (uuid4 : N) (op : operation) (body : pyobj)
    : pyobj :=
  match op with
  | Upload _ file_id _ =>
      PDict [("message", PStr "Document uploaded successfully");
             ("file_id", PStr (_normalize_file_id settings uuid4 file_id));
             ("rag_response", body)]
  | ListIds => PDict [("ids", body)]
  | Preview file_id =>
      PDict [("file_id", PStr (_normalize_file_id settings uuid4 (Some file_id)));
             ("chunks", body)]
  end.

(** A character that would change the meaning of a URL path segment. *)
Definition breaks_path (c : ascii) : bool :=
  is_char "/" c || is_char "." c || is_char "?" c || is_char "#" c || is_char "%" c
  || isspace c.

End Documents.

(* ================================================================== *)
(** * app/core/langgraph/tools/rag_search.py *)
(* ================================================================== *)

Module RagSearch.

(** The private attributes [__init__] sets. *)
Record RAGSearchTool : Type := {
  _base_url : string;
  _query_endpoint : string;
  _query_multiple_endpoint : string;
  _default_file_ids : list string;
  _default_top_k : Z;
  _entity_id : option string;
  _jwt_secret : option string;
  _jwt_algorithm : string;
  _jwt_ttl_seconds : Z;
  _service_subject : string
}.

Definition _ensure_leading_slash (value : string) : string :=
  if negb (str_truthy value) then ""
  else if str_startswith_char "/" value then value
  else "/" ++ value.

Definition init (settings : Settings) : RAGSearchTool :=
  {| _base_url := str_rstrip_char "/" (RAG_BASE_URL settings);
     _query_endpoint := _ensure_leading_slash (RAG_QUERY_ENDPOINT settings);
     _query_multiple_endpoint := _ensure_leading_slash (RAG_QUERY_MULTIPLE_ENDPOINT settings);
     _default_file_ids := filter str_truthy (RAG_DEFAULT_FILE_IDS settings);
     _default_top_k := Z.max 1 (RAG_TOP_K settings);
     _entity_id := RAG_ENTITY_ID settings;
     _jwt_secret := RAG_JWT_SECRET settings;
     _jwt_algorithm := RAG_JWT_ALGORITHM settings;
     _jwt_ttl_seconds := Z.max 10 (RAG_JWT_TTL_SECONDS settings);
     _service_subject := or_default (RAG_SERVICE_SUBJECT settings) "agent_service" |}.

(** ** [_compose_payload] *)
Definition _compose_payload (self : RAGSearchTool) (query : string)
    (file_ids : list string) (top_k : Z) (entity_id : option string)
    : result (string * dict) :=
  let is_multiple := (1 <? List.length file_ids)%nat in
  let endpoint := if is_multiple then _query_multiple_endpoint self else _query_endpoint self in
  let payload := [("query", PStr query); ("k", PInt top_k)] in
  payload <-
    (if is_multiple
     then Ok (dict_set payload "file_ids" (PList (map PStr file_ids)))
     else match file_ids with
          | first :: _ => Ok (dict_set payload "file_id" (PStr first))
          | [] => Raise IndexError
          end) ;;
  let resolved_entity_id := opt_or entity_id (_entity_id self) in
  let payload :=
    if opt_truthy resolved_entity_id
    then dict_set payload "entity_id" (PStr (or_default resolved_entity_id ""))
    else payload in
  Ok (endpoint, payload).

(** The endpoint and the payload [_compose_payload] arrives at for the
    non-empty list [fid :: rest], written out as an association list. *)
Definition endpoint_of (self : RAGSearchTool) (rest : list string) : string :=
  match rest with
  | [] => _query_endpoint self
  | _ :: _ => _query_multiple_endpoint self
  end.

Definition payload_of (self : RAGSearchTool) (query : string) (fid : string)
    (rest : list string) (top_k : Z) (entity_id : option string) : dict :=
  List.app
    [("query", PStr query); ("k", PInt top_k);
     match rest with
     | [] => ("file_id", PStr fid)
     | _ :: _ => ("file_ids", PList (map PStr (fid :: rest)))
     end]
    (match opt_or entity_id (_entity_id self) with
     | Some e => if str_truthy e then [("entity_id", PStr e)] else []
     | None => []
     end).

(** The three fixed messages. *)
Definition NO_CONTEXT : string := "No relevant context found in the knowledge base.".

Definition QUERY_REQUIRED : string := "A search query is required to use the knowledge base.".

Definition NO_FILE_IDS : string :=
  "No file identifiers were provided or configured for the RAG knowledge base. " ++
  "Add file IDs via `file_ids` argument or configure `RAG_DEFAULT_FILE_IDS`.".

(** [top_k or self._default_top_k], then the floor at 1 (lines 173-175). *)
Definition resolve_top_k (self : RAGSearchTool) (top_k : option Z) : Z :=
  let resolved_top_k :=
    match top_k with
    | Some k => if k =? 0 then _default_top_k self else k
    | None => _default_top_k self
    end in
  if resolved_top_k <? 1 then 1 else resolved_top_k.

(** [file_ids or self._default_file_ids] (line 165), then the filter
    [[fid for fid in resolved_file_ids if fid]] (line 166). *)
Definition candidate_file_ids (self : RAGSearchTool) (file_ids : option (list string))
    : list string :=
  match file_ids with
  | Some (fid :: rest) => fid :: rest
  | _ => _default_file_ids self
  end.

Definition resolve_file_ids (self : RAGSearchTool) (file_ids : option (list string))
    : list string :=
  filter str_truthy (candidate_file_ids self file_ids).

(** A blank string: empty, or whitespace only. *)
Definition is_blank (s : string) : bool := negb (str_truthy (str_strip s)).

(** [response.raise_for_status()]: as [httpx] has it, any status
    outside 2xx raises. *)
Definition raise_for_status (r : response) : result unit :=
  if (200 <=? status_code r) && (status_code r <=? 299) then Ok tt
  else Raise (HTTPStatusError (status_code r) (text r)).

(** The four [except] clauses of [_arun], in their order; any other
    exception passes through. *)
Definition on_exception (e : exn) : result string :=
  match e with
  | HTTPStatusError status _ =>
      Ok ("RAG search failed with status " ++ str_of_Z status ++ ". " ++
          "Verify the file identifiers and query parameters.")
  | TimeoutException _ =>
      Ok "RAG search timed out. Please try again with a simpler query."
  | HTTPErrorOther msg =>
      Ok ("RAG search failed due to a network error: " ++ msg)
  | ValueError _ =>
      Ok "RAG search returned an unexpected response format."
  | other => Raise other
  end.

(** The exceptions the four [except] clauses catch. *)
Definition is_caught (e : exn) : bool :=
  match e with
  | HTTPStatusError _ _ | TimeoutException _ | HTTPErrorOther _ | ValueError _ => true
  | _ => false
  end.

(** [_run]: the synchronous entry point. *)
Definition _run : result string :=
  Raise (NotImplementedError "rag_search tool is async-only").

(** [for idx, item in enumerate(data, start=1)]: what [data] yields. *)
Definition py_iter (data : pyobj) : result (list pyobj) :=
  match data with
  | PList l => Ok l
  | PDict d => Ok (map (fun kv => PStr (fst kv)) d)
  | PStr s => Ok (map (fun c => PStr (String c "")) (chars s))
  | _ => Raise TypeError
  end.

(** Lines 124-133: the document and the score of one entry. *)
Definition entry_parts (item : pyobj) : pyobj * pyobj :=
  match item with
  | PList (first :: rest) =>
      (first, match rest with second :: _ => second | [] => PNone end)
  | PDict d => (py_or (dict_get d "document") item, dict_get d "score")
  | _ => (PNone, PNone)
  end.

(** An entry is skipped when its document is not a [dict] (line 135). *)
Definition is_skipped (item : pyobj) : bool :=
  match fst (entry_parts item) with
  | PDict _ => false
  | _ => true
  end.

(** [enumerate(items, start)]: the entries with their positions in the
    raw list; and those of them that are kept. *)
Definition enumerate_from (start : nat) (items : list pyobj) : list (nat * pyobj) :=
  combine (seq start (List.length items)) items.

Definition kept_from (start : nat) (items : list pyobj) : list (nat * pyobj) :=
  filter (fun e => negb (is_skipped (snd e))) (enumerate_from start items).

Definition kept_entries (items : list pyobj) : list (nat * pyobj) := kept_from 1 items.

Definition newline : string := String "010" "".

Definition is_digit (c : ascii) : bool := in_range 48 57 c.

(** Values the [or] chains of lines 138-139 can live with: a falsy
    value is passed over, a truthy one must be a [str] (body text) or a
    [dict] (metadata). *)
Definition falsy_or_str (v : pyobj) : bool :=
  negb (truthy v) || match v with PStr _ => true | _ => false end.

Definition falsy_or_dict (v : pyobj) : bool :=
  negb (truthy v) || match v with PDict _ => true | _ => false end.

Definition plain_document (document : dict) : bool :=
  falsy_or_str (dict_get document "page_content")
  && falsy_or_str (dict_get document "content")
  && falsy_or_dict (dict_get document "metadata").





Section Tool.

(** Library primitives: [jose.jwt.encode]; the network with the
    upstream's answer; [format(x, ".3f")] on a float and on an integer
    (which raises [OverflowError] past the float range); [str(x)] on a
    float or a container; [textwrap.shorten(text, width, placeholder)]. *)
Variable jwt_encode : jwt_payload -> string -> string -> result string.
Variable http_send : request -> result response.
Variable format_float_3f : pyfloat -> string.
Variable format_int_3f : Z -> result string.
Variable py_str : pyobj -> string.
Variable textwrap_shorten : string -> Z -> string -> string.

(** ** [_generate_jwt] and [_prepare_headers] *)

(** Lines 77-81: the claim set, built before the [try]. *)
Definition jwt_payload_of (self : RAGSearchTool) (now : Z) : result jwt_payload :=
  delta <- timedelta_seconds (_jwt_ttl_seconds self) ;;
  expires <- datetime_add now delta ;;
  Ok {| sub := _service_subject self;
        iat := Datetime now;
        exp := Datetime expires |}.

Definition _generate_jwt (self : RAGSearchTool) (now : Z) : result (option string) :=
  match _jwt_secret self with
  | Some secret =>
      if str_truthy secret then
        payload <- jwt_payload_of self now ;;
        match jwt_encode payload secret (_jwt_algorithm self) with
        | Ok token => Ok (Some token)
        | Raise _ => Ok None
        end
      else Ok None
  | None => Ok None
  end.

Definition _prepare_headers (self : RAGSearchTool) (now : Z)
    : result (list (string * string)) :=
  let headers := [("Content-Type", "application/json")] in
  issued <- _generate_jwt self now ;;
  match issued with
  | Some token =>
      Ok (if str_truthy token
          then List.app headers [("Authorization", "Bearer " ++ token)]
          else headers)
  | None => Ok headers
  end.

(** ** [_format_results] *)

(** The default rendering of a value inside an f-string. *)
Definition py_format (v : pyobj) : string :=
  match v with
  | PStr s => s
  | PInt z => str_of_Z z
  | PBool true => "True"
  | PBool false => "False"
  | PNone => "None"
  | _ => py_str v
  end.

(** Lines 138-145 for a document that is a [dict]. *)
Definition render_document (idx : nat) (document : dict) (score : pyobj)
    : result string :=
  let page_content :=
    py_or (py_or (dict_get document "page_content") (dict_get document "content")) (PStr "") in
  let metadata := py_or (dict_get document "metadata") (PDict []) in
  snippet <-
    match page_content with
    | PStr s => Ok (textwrap_shorten (str_join " " (str_split s)) 320 "...")
    | _ => Raise AttributeError
    end ;;
  source <-
    match metadata with
    | PDict md =>
        Ok (py_or (py_or (py_or (dict_get md "source") (dict_get md "filename"))
                     (dict_get md "file_id"))
              (PStr "unknown source"))
    | _ => Raise AttributeError
    end ;;
  score_text <-
    match score with
    | PFloat f => Ok (format_float_3f f)
    | PInt z => format_int_3f z
    | PBool b => format_int_3f (if b then 1 else 0)
    | _ => Ok "n/a"
    end ;;
  Ok (str_of_nat idx ++ ". score=" ++ score_text ++ " source=" ++ py_format source
        ++ ": " ++ snippet).

(** One turn of the loop: [None] when the entry is skipped by [continue]. *)
Definition format_entry (idx : nat) (item : pyobj) : result (option string) :=
  match fst (entry_parts item) with
  | PDict document =>
      line <- render_document idx document (snd (entry_parts item)) ;;
      Ok (Some line)
  | _ => Ok None
  end.

(** [line] is the line the loop produces for the entry [snd e] at
    position [fst e]. *)
Definition renders_as (e : nat * pyobj) (line : string) : Prop :=
  format_entry (fst e) (snd e) = Ok (Some line).

(** The loop of lines 123-145, [formatted_chunks] being the accumulator. *)
Fixpoint format_loop (idx : nat) (items : list pyobj) (formatted_chunks : list string)
    : result (list string) :=
  match items with
  | [] => Ok formatted_chunks
  | item :: rest =>
      line <- format_entry idx item ;;
      format_loop (S idx) rest
        (match line with
         | Some l => List.app formatted_chunks [l]
         | None => formatted_chunks
         end)
  end.

Definition _format_results (data : pyobj) : result string :=
  if negb (truthy data) then Ok NO_CONTEXT
  else
    items <- py_iter data ;;
    formatted_chunks <- format_loop 1 items [] ;;
    match formatted_chunks with
    | [] => Ok NO_CONTEXT
    | _ :: _ => Ok (str_join newline formatted_chunks)
    end.

(** The score of an entry renders: an integer score (a [bool] included)
    is within the range [format] accepts. *)
Definition score_renders (score : pyobj) : Prop :=
  match score with
  | PInt z => exists s, format_int_3f z = Ok s
  | PBool b => exists s, format_int_3f (if b then 1 else 0) = Ok s
  | _ => True
  end.

(** An entry the loop can take: skipped, or a plain document with a
    score that renders. *)
Definition renderable (item : pyobj) : Prop :=
  match fst (entry_parts item) with
  | PDict document =>
      plain_document document = true /\ score_renders (snd (entry_parts item))
  | _ => True
  end.

(** ** [_arun]

    The result comes with the list of requests handed to the HTTP
    client during the call, in order. *)
Definition query_request (url : string) (payload : dict)
    (headers : list (string * string)) : request :=
  {| req_method := "POST";
     req_url := url;
     req_json := Some payload;
     req_data := None;
     req_files := None;
     req_headers := headers |}.

(** The body of the [try]: post, [raise_for_status], [json]. *)
Definition post_query (req : request) : result pyobj :=
  r <- http_send req ;;
  _ <- raise_for_status r ;;
  json_body r.

Definition _arun (self : RAGSearchTool) (now : Z) (query : string)
    (file_ids : option (list string)) (top_k : option Z) (entity_id : option string)
    : list request * result string :=
  if negb (str_truthy query) || negb (str_truthy (str_strip query))
  then ([], Ok QUERY_REQUIRED)
  else
    let resolved_file_ids := resolve_file_ids self file_ids in
    match resolved_file_ids with
    | [] => ([], Ok NO_FILE_IDS)
    | _ :: _ =>
        let resolved_top_k := resolve_top_k self top_k in
        match _compose_payload self (str_strip query) resolved_file_ids
                resolved_top_k entity_id with
        | Raise e => ([], Raise e)
        | Ok (endpoint, payload) =>
            let url := _base_url self ++ endpoint in
            match _prepare_headers self now with
            | Raise e => ([], Raise e)
            | Ok headers =>
                let req := query_request url payload headers in
                ([req],
                 match post_query req with
                 | Ok data => _format_results data
                 | Raise e => on_exception e
                 end)
            end
        end
    end.

End Tool.

End RagSearch.

(* ================================================================== *)
(** * app/web/router.py *)
(* ================================================================== *)

Module Router.

(** The [default_file_id] entry of the template context [render_ui]
    builds (line 26). *)
Definition default_file_id (settings : Settings) : string :=
  match RAG_DEFAULT_FILE_IDS settings with
  | first :: _ => first
  | [] => ""
  end.

End Router.

(* ================================================================== *)
(** * Concrete configurations and environments *)
(* ================================================================== *)

Module Samples.

Definition settings : Settings :=
  {| RAG_BASE_URL := "http://rag:8000/";
     RAG_QUERY_ENDPOINT := "query";
     RAG_QUERY_MULTIPLE_ENDPOINT := "/query_multiple";
     RAG_DEFAULT_FILE_IDS := [];
     RAG_TOP_K := 5;
     RAG_ENTITY_ID := None;
     RAG_JWT_SECRET := Some "s3cret";
     RAG_JWT_ALGORITHM := "HS256";
     RAG_JWT_TTL_SECONDS := 60;
     RAG_SERVICE_SUBJECT := None |}.

Definition with_defaults (ids : list string) : Settings :=
  {| RAG_BASE_URL := RAG_BASE_URL settings;
     RAG_QUERY_ENDPOINT := RAG_QUERY_ENDPOINT settings;
     RAG_QUERY_MULTIPLE_ENDPOINT := RAG_QUERY_MULTIPLE_ENDPOINT settings;
     RAG_DEFAULT_FILE_IDS := ids;
     RAG_TOP_K := RAG_TOP_K settings;
     RAG_ENTITY_ID := RAG_ENTITY_ID settings;
     RAG_JWT_SECRET := RAG_JWT_SECRET settings;
     RAG_JWT_ALGORITHM := RAG_JWT_ALGORITHM settings;
     RAG_JWT_TTL_SECONDS := RAG_JWT_TTL_SECONDS settings;
     RAG_SERVICE_SUBJECT := RAG_SERVICE_SUBJECT settings |}.


(** A time to live of some 31,700 years. *)
Definition long_lived : Settings :=
  {| RAG_BASE_URL := RAG_BASE_URL settings;
     RAG_QUERY_ENDPOINT := RAG_QUERY_ENDPOINT settings;
     RAG_QUERY_MULTIPLE_ENDPOINT := RAG_QUERY_MULTIPLE_ENDPOINT settings;
     RAG_DEFAULT_FILE_IDS := ["kb"];
     RAG_TOP_K := RAG_TOP_K settings;
     RAG_ENTITY_ID := RAG_ENTITY_ID settings;
     RAG_JWT_SECRET := RAG_JWT_SECRET settings;
     RAG_JWT_ALGORITHM := RAG_JWT_ALGORITHM settings;
     RAG_JWT_TTL_SECONDS := 10 ^ 12;
     RAG_SERVICE_SUBJECT := RAG_SERVICE_SUBJECT settings |}.

(** An encoder that succeeds and one that raises. *)
Definition encode (payload : jwt_payload) (secret algorithm : string) : result string :=
  Ok (algorithm ++ "." ++ sub payload).

Definition failing_encode (payload : jwt_payload) (secret algorithm : string)
    : result string :=
  Raise (OtherError "JWSError").

(** An upstream that answers every request in the same way. *)
Definition upstream (outcome : result response) (req : request) : result response :=
  outcome.

Definition json_response (data : pyobj) : response :=
  {| status_code := 200;
     reason_phrase := "OK";
     text := "";
     content_type := Some "application/json";
     json_body := Ok data |}.

Definition error_response (status : Z) (reason body : string) : response :=
  {| status_code := status;
     reason_phrase := reason;
     text := body;
     content_type := Some "text/plain";
     json_body := Raise (ValueError "Expecting value") |}.

Definition garbled_response : response :=
  {| status_code := 200;
     reason_phrase := "OK";
     text := "<html>";
     content_type := Some "application/json";
     json_body := Raise (ValueError "Expecting value") |}.

(** Stand-ins for the formatting primitives.  [int_3f] and [shorten]
    are exact on what the examples use (small integers, short texts
    already collapsed); no example holds a float score or renders a
    container, so [float_3f] and [str_other] are never reached. *)
Definition float_3f (f : pyfloat) : string := "nan".

Definition int_3f (z : Z) : result string := Ok (str_of_Z z ++ ".000").

Definition str_other (v : pyobj) : string := "[]".

Definition shorten (text : string) (width : Z) (placeholder : string) : string :=
  if Z.of_nat (String.length text) <=? width then text
  else substring 0 (Z.to_nat width - String.length placeholder) text ++ placeholder.

Definition tool : RagSearch.RAGSearchTool := RagSearch.init settings.

(** The formatter and the tool over these stand-ins, the upstream
    answering with [outcome]. *)
Definition format_results : pyobj -> result string :=
  RagSearch._format_results float_3f int_3f str_other shorten.

Definition run_tool (outcome : result response) :
    RagSearch.RAGSearchTool -> Z -> string -> option (list string) -> option Z ->
    option string -> list request * result string :=
  RagSearch._arun encode (upstream outcome) float_3f int_3f str_other shorten.

Definition timeout : result response := Raise (TimeoutException "timed out").

(** The requests of the list endpoint, of a preview and of an upload. *)
Definition ids_request : request :=
  Documents.rag_request_of settings "GET" "/ids" None None
    [("Authorization", "Bearer HS256.agent_service")].

Definition preview_request : request :=
  Documents.rag_request_of settings "GET" "/documents/etc_passwd_x_1/context" None None
    [("Authorization", "Bearer HS256.agent_service")].

Definition upload : Documents.UploadFile :=
  {| Documents.filename := Some "notes.txt";
     Documents.file_bytes := "hello";
     Documents.file_content_type := None |}.

Definition upload_request : request :=
  Documents.rag_request_of settings "POST" "/embed"
    (Some [("file_id", "my_notes"); ("entity_id", "acme")])
    (Some [("file", {| part_filename := Some "notes.txt";
                       part_bytes := "hello";
                       part_content_type := "application/octet-stream" |})])
    [("Authorization", "Bearer HS256.agent_service")].

(** The requests the tool makes for one identifier and for two. *)
Definition signed_headers : list (string * string) :=
  [("Content-Type", "application/json"); ("Authorization", "Bearer HS256.agent_service")].

Definition single_request : request :=
  RagSearch.query_request "http://rag:8000/query"
    [("query", PStr "hello"); ("k", PInt 5); ("file_id", PStr "kb")] signed_headers.

Definition multi_request : request :=
  RagSearch.query_request "http://rag:8000/query_multiple"
    [("query", PStr "hello"); ("k", PInt 3);
     ("file_ids", PList [PStr "a"; PStr "b"]); ("entity_id", PStr "acme")]
    signed_headers.

End Samples.

(* ================================================================== *)
(** * Facts about the Python builtins *)
(* ================================================================== *)

Section StringFacts.

Lemma chars_of_chars (l : list ascii) : chars (of_chars l) = l.
Proof. apply list_ascii_of_string_of_list_ascii. Qed.

Lemma of_chars_chars (s : string) : of_chars (chars s) = s.
Proof. apply string_of_list_ascii_of_string. Qed.

Lemma str_truthy_nonempty (s : string) : str_truthy s = true <-> s <> "".
Proof. destruct s; simpl; split; congruence. Qed.

Lemma chars_app (s t : string) : chars (s ++ t) = (chars s ++ chars t)%list.
Proof. induction s as [|c s IH]; simpl; [reflexivity | now rewrite <- IH]. Qed.

Variable p : ascii -> bool.

Lemma lstrip_by_fixed (l : list ascii) :
  Documents.starts_with p l = false -> lstrip_by p l = l.
Proof. destruct l as [|c t]; simpl; [reflexivity | now intros ->]. Qed.

Lemma rstrip_by_fixed (l : list ascii) :
  Documents.ends_with p l = false -> rstrip_by p l = l.
Proof.
  induction l as [|c t IH]; [reflexivity|].
  cbn [Documents.ends_with rstrip_by]. destruct t as [|c' t'].
  - simpl. now intros ->.
  - intros H. rewrite (IH H). reflexivity.
Qed.

Lemma starts_with_lstrip_by (l : list ascii) :
  Documents.starts_with p (lstrip_by p l) = false.
Proof.
  induction l as [|c t IH]; [reflexivity|]. simpl.
  destruct (p c) eqn:E; [exact IH | simpl; exact E].
Qed.

Lemma ends_with_rstrip_by (l : list ascii) :
  Documents.ends_with p (rstrip_by p l) = false.
Proof.
  induction l as [|c t IH]; [reflexivity|]. cbn [rstrip_by].
  destruct (rstrip_by p t) as [|c' t'] eqn:E.
  - destruct (p c) eqn:Ec; simpl; [reflexivity | exact Ec].
  - exact IH.
Qed.

Lemma starts_with_rstrip_by (l : list ascii) :
  Documents.starts_with p l = false -> Documents.starts_with p (rstrip_by p l) = false.
Proof.
  destruct l as [|c t]; [reflexivity|]. cbn [rstrip_by Documents.starts_with].
  intros H. destruct (rstrip_by p t); [rewrite H|]; simpl; auto.
Qed.

Lemma strip_by_ends (l : list ascii) :
  Documents.starts_with p (strip_by p l) = false /\
  Documents.ends_with p (strip_by p l) = false.
Proof.
  unfold strip_by. split.
  - apply starts_with_rstrip_by, starts_with_lstrip_by.
  - apply ends_with_rstrip_by.
Qed.

Lemma strip_by_fixed (l : list ascii) :
  Documents.starts_with p l = false -> Documents.ends_with p l = false ->
  strip_by p l = l.
Proof.
  intros Hs He. unfold strip_by. rewrite (lstrip_by_fixed l Hs).
  now apply rstrip_by_fixed.
Qed.

Variable q : ascii -> bool.

Lemma forallb_lstrip_by (l : list ascii) :
  forallb q l = true -> forallb q (lstrip_by p l) = true.
Proof.
  induction l as [|c t IH]; [reflexivity|]. simpl.
  intros H. apply andb_true_iff in H as [Hc Ht].
  destruct (p c); [auto | simpl; now rewrite Hc, Ht].
Qed.

Lemma forallb_rstrip_by (l : list ascii) :
  forallb q l = true -> forallb q (rstrip_by p l) = true.
Proof.
  induction l as [|c t IH]; [reflexivity|]. cbn [rstrip_by forallb].
  intros H. apply andb_true_iff in H as [Hc Ht]. specialize (IH Ht).
  destruct (rstrip_by p t) as [|c' t'].
  - destruct (p c); simpl; [reflexivity | now rewrite Hc].
  - change (q c && forallb q (c' :: t') = true). now rewrite Hc, IH.
Qed.

Lemma no_repeat_cons2 (c c' : ascii) (t : list ascii) :
  Documents.no_repeat q (c :: c' :: t) =
  negb (q c && q c') && Documents.no_repeat q (c' :: t).
Proof. reflexivity. Qed.

Lemma no_repeat_tail (c : ascii) (t : list ascii) :
  Documents.no_repeat q (c :: t) = true -> Documents.no_repeat q t = true.
Proof.
  destruct t as [|c' t']; [reflexivity|]. cbn [Documents.no_repeat].
  intros H. now apply andb_true_iff in H as [_ H].
Qed.

Lemma no_repeat_lstrip_by (l : list ascii) :
  Documents.no_repeat q l = true -> Documents.no_repeat q (lstrip_by p l) = true.
Proof.
  induction l as [|c t IH]; [reflexivity|]. intros H. simpl.
  destruct (p c); [apply IH; now apply no_repeat_tail with c | exact H].
Qed.

Lemma no_repeat_rstrip_by (l : list ascii) :
  Documents.no_repeat q l = true -> Documents.no_repeat q (rstrip_by p l) = true.
Proof.
  induction l as [|c t IH]; [reflexivity|]. intros H.
  pose proof (IH (no_repeat_tail c t H)) as IH'.
  cbn [rstrip_by]. destruct t as [|c' t'].
  - simpl. destruct (p c); reflexivity.
  - cbn [Documents.no_repeat] in H. apply andb_true_iff in H as [Hcc _].
    cbn [rstrip_by] in *.
    destruct (rstrip_by p t') as [|c'' t''].
    + destruct (p c'); [destruct (p c); reflexivity|].
      cbn [Documents.no_repeat]. now rewrite Hcc.
    + cbn [Documents.no_repeat] in *. now rewrite Hcc, IH'.
Qed.

Lemma forallb_ends (l : list ascii) :
  forallb q l = true -> (forall c, q c = true -> p c = false) ->
  Documents.starts_with p l = false /\ Documents.ends_with p l = false.
Proof.
  intros H Hq. split.
  - destruct l as [|c t]; [reflexivity|]. simpl in *.
    apply andb_true_iff in H as [Hc _]. auto.
  - induction l as [|c t IH]; [reflexivity|]. cbn [forallb] in H.
    apply andb_true_iff in H as [Hc Ht]. cbn [Documents.ends_with].
    destruct t; auto.
Qed.

End StringFacts.

(* ================================================================== *)
(** * The identifier normalizer *)
(* ================================================================== *)

Section Normalizer.

Import Documents.

Local Abbreviation is_us := (is_char "_").

(** Case analysis over the 256 characters. *)
Ltac by_cases_on c :=
  destruct c as [[] [] [] [] [] [] [] []]; vm_compute; congruence.

Lemma id_char_not_space (c : ascii) : is_id_char c = true -> isspace c = false.
Proof. by_cases_on c. Qed.

Lemma id_char_lower (c : ascii) : is_id_char c = true -> lower_char c = c.
Proof. by_cases_on c. Qed.

Lemma map_lower_fixed (l : list ascii) :
  forallb is_id_char l = true -> map lower_char l = l.
Proof.
  induction l as [|c t IH]; [reflexivity|]. simpl. intros H.
  apply andb_true_iff in H as [Hc Ht]. now rewrite (id_char_lower c Hc), IH.
Qed.

Lemma replace_unsafe_fixed (l : list ascii) :
  forallb is_id_char l = true -> replace_unsafe l = l.
Proof.
  induction l as [|c t IH]; [reflexivity|]. simpl. intros H.
  apply andb_true_iff in H as [Hc Ht]. rewrite Hc. f_equal. now apply IH.
Qed.

Lemma replace_unsafe_id_chars (l : list ascii) :
  forallb is_id_char (replace_unsafe l) = true.
Proof.
  induction l as [|c t IH]; [reflexivity|]. simpl. rewrite IH.
  destruct (is_id_char c) eqn:E; [now rewrite E | reflexivity].
Qed.

Lemma collapse_underscores_cons2 (c c' : ascii) (t : list ascii) :
  collapse_underscores (c :: c' :: t) =
  if is_us c && is_us c' then collapse_underscores (c' :: t)
  else c :: collapse_underscores (c' :: t).
Proof. reflexivity. Qed.

Lemma collapse_underscores_fixed (l : list ascii) :
  no_repeat is_us l = true -> collapse_underscores l = l.
Proof.
  induction l as [|c t IH]; [reflexivity|]. intros H.
  pose proof (IH (no_repeat_tail _ c t H)) as IH'.
  destruct t as [|c' t']; [reflexivity|].
  cbn [no_repeat] in H. apply andb_true_iff in H as [Hcc _].
  apply negb_true_iff in Hcc.
  rewrite collapse_underscores_cons2, Hcc. now rewrite IH'.
Qed.

Lemma starts_with_collapse (l : list ascii) :
  starts_with is_us (collapse_underscores l) = starts_with is_us l.
Proof.
  induction l as [|c t IH]; [reflexivity|].
  destruct t as [|c' t']; [reflexivity|].
  rewrite collapse_underscores_cons2. destruct (is_us c && is_us c') eqn:E.
  - rewrite IH. apply andb_true_iff in E as [E1 E2]. simpl. now rewrite E1, E2.
  - reflexivity.
Qed.

Lemma no_repeat_collapse (l : list ascii) :
  no_repeat is_us (collapse_underscores l) = true.
Proof.
  induction l as [|c t IH]; [reflexivity|].
  destruct t as [|c' t']; [reflexivity|].
  rewrite collapse_underscores_cons2. destruct (is_us c && is_us c') eqn:E; [exact IH|].
  pose proof (starts_with_collapse (c' :: t')) as Hs.
  destruct (collapse_underscores (c' :: t')) as [|d t'']; [reflexivity|].
  rewrite no_repeat_cons2, IH. simpl in Hs. rewrite Hs, E. reflexivity.
Qed.

Lemma forallb_collapse (q : ascii -> bool) (l : list ascii) :
  forallb q l = true -> forallb q (collapse_underscores l) = true.
Proof.
  induction l as [|c t IH]; [reflexivity|]. intros H.
  change (q c && forallb q t = true) in H. apply andb_true_iff in H as [Hc Ht].
  specialize (IH Ht). destruct t as [|c' t']; [simpl; now rewrite Hc|].
  rewrite collapse_underscores_cons2. destruct (is_us c && is_us c'); [exact IH|].
  change (q c && forallb q (collapse_underscores (c' :: t')) = true).
  now rewrite Hc, IH.
Qed.

Lemma clean_chars_shape (l : list ascii) : canonical_chars (clean_chars l) = true.
Proof.
  unfold canonical_chars, clean_chars.
  set (m := collapse_underscores _).
  assert (Hid : forallb is_id_char m = true)
    by (apply forallb_collapse, replace_unsafe_id_chars).
  assert (Hnr : no_repeat is_us m = true) by apply no_repeat_collapse.
  destruct (strip_by_ends is_us m) as [Hs He].
  rewrite Hs, He. unfold strip_by.
  rewrite forallb_rstrip_by by now apply forallb_lstrip_by.
  rewrite no_repeat_rstrip_by by now apply no_repeat_lstrip_by.
  reflexivity.
Qed.

Lemma clean_chars_fixed (l : list ascii) :
  canonical_chars l = true -> clean_chars l = l.
Proof.
  unfold canonical_chars. intros H.
  apply andb_true_iff in H as [H He]. apply andb_true_iff in H as [H Hs].
  apply andb_true_iff in H as [Hid Hnr].
  apply negb_true_iff in He, Hs.
  destruct (forallb_ends isspace is_id_char l Hid id_char_not_space) as [Hs' He'].
  unfold clean_chars. rewrite (strip_by_fixed _ l Hs' He').
  rewrite (map_lower_fixed l Hid), (replace_unsafe_fixed l Hid).
  rewrite (collapse_underscores_fixed l Hnr).
  now apply strip_by_fixed.
Qed.

Lemma clean_idempotent (s : string) : clean (clean s) = clean s.
Proof.
  unfold clean. rewrite chars_of_chars.
  now rewrite (clean_chars_fixed _ (clean_chars_shape (chars s))).
Qed.

Lemma canonical_shape (s : string) :
  canonical s -> canonical_chars (chars s) = true.
Proof.
  intros [_ H]. rewrite <- H at 1. unfold clean. rewrite chars_of_chars.
  apply clean_chars_shape.
Qed.

Lemma clean_canonical (s : string) : clean s <> "" -> canonical (clean s).
Proof. intros H. split; [exact H | apply clean_idempotent]. Qed.

(** ** The generated identifier *)

Lemma hex_is_id_char (c : ascii) : is_hex c = true -> is_id_char c = true.
Proof. by_cases_on c. Qed.

Lemma hex_not_underscore (c : ascii) : is_hex c = true -> is_us c = false.
Proof. by_cases_on c. Qed.

Lemma hex_digit_is_hex (n : N) : is_hex (hex_digit n) = true.
Proof.
  unfold hex_digit.
  assert (H : (N.to_nat (n mod 16) < 16)%nat).
  { pose proof (N.mod_upper_bound n 16). lia. }
  generalize dependent (N.to_nat (n mod 16)). intros k H.
  do 16 (destruct k as [|k]; [reflexivity|]). lia.
Qed.

Lemma hex_fixed_is_hex (w : nat) (n : N) : forallb is_hex (hex_fixed w n) = true.
Proof.
  revert n. induction w as [|w IH]; intros n; [reflexivity|]. simpl.
  rewrite forallb_app, IH. simpl. now rewrite hex_digit_is_hex.
Qed.

Lemma hex_fixed_length (w : nat) (n : N) : List.length (hex_fixed w n) = w.
Proof.
  revert n. induction w as [|w IH]; intros n; [reflexivity|]. simpl.
  rewrite length_app, IH. simpl. lia.
Qed.

Lemma forallb_firstn (q : ascii -> bool) (k : nat) (l : list ascii) :
  forallb q l = true -> forallb q (firstn k l) = true.
Proof.
  revert l. induction k as [|k IH]; intros [|c t]; try reflexivity. simpl.
  intros H. apply andb_true_iff in H as [Hc Ht]. now rewrite Hc, IH.
Qed.

Lemma hex_tail_canonical (h : list ascii) :
  forallb is_hex h = true -> h <> [] ->
  forallb is_id_char h = true /\ no_repeat is_us h = true /\ ends_with is_us h = false.
Proof.
  induction h as [|c t IH]; [congruence|]. intros H _.
  change (is_hex c && forallb is_hex t = true) in H.
  apply andb_true_iff in H as [Hc Ht].
  pose proof (hex_is_id_char c Hc) as Hid. pose proof (hex_not_underscore c Hc) as Hus.
  destruct t as [|c' t'].
  - simpl. now rewrite Hid, Hus.
  - destruct (IH Ht ltac:(discriminate)) as (I1 & I2 & I3).
    rewrite no_repeat_cons2. change (ends_with is_us (c :: c' :: t'))
      with (ends_with is_us (c' :: t')). rewrite Hus, I2, I3.
    change (forallb is_id_char (c :: c' :: t')) with
      (is_id_char c && forallb is_id_char (c' :: t')).
    now rewrite Hid, I1.
Qed.

Lemma generated_id_canonical (uuid4 : N) : canonical (generated_id uuid4).
Proof.
  assert (Hc : canonical_chars (chars (generated_id uuid4)) = true).
  { unfold generated_id. rewrite chars_app, chars_of_chars.
    set (h := firstn 8 (uuid_hex uuid4)).
    assert (Hh : forallb is_hex h = true)
      by (apply forallb_firstn, hex_fixed_is_hex).
    assert (Hn : h <> []).
    { intros E. apply (f_equal (@List.length ascii)) in E. unfold h, uuid_hex in E.
      rewrite length_firstn, hex_fixed_length in E. simpl in E. lia. }
    destruct (hex_tail_canonical h Hh Hn) as (I1 & I2 & I3).
    destruct h as [|c t]; [congruence|].
    unfold canonical_chars. simpl chars. cbn [app].
    change (forallb is_hex (c :: t)) with (is_hex c && forallb is_hex t) in Hh.
    apply andb_true_iff in Hh as [Hc _].
    cbn [forallb no_repeat starts_with ends_with] in *.
    rewrite I1, I2, I3. rewrite (hex_not_underscore c Hc). reflexivity. }
  split.
  - unfold generated_id. simpl. discriminate.
  - unfold clean. rewrite (clean_chars_fixed _ Hc). apply of_chars_chars.
Qed.

(** ** The result of [_normalize_file_id] *)

Lemma normalize_cases (settings : Settings) (uuid4 : N) (value : option string) :
  (cleans_to_nonempty value = true /\
   exists v, value = Some v /\ _normalize_file_id settings uuid4 value = clean v /\
             clean v <> "") \/
  (cleans_to_nonempty value = false /\
   _normalize_file_id settings uuid4 value =
     match RAG_DEFAULT_FILE_IDS settings with
     | first :: _ => first
     | [] => generated_id uuid4
     end).
Proof.
  unfold _normalize_file_id, cleans_to_nonempty.
  destruct value as [v|]; [|now right].
  destruct (str_truthy v); [|now right]. simpl.
  destruct (str_truthy (clean v)) eqn:E; [left | now right].
  split; [reflexivity|]. exists v. repeat split. now apply str_truthy_nonempty.
Qed.

Lemma normalize_canonical (settings : Settings) (uuid4 : N) (value : option string) :
  cleans_to_nonempty value = true \/ defaults_canonical settings ->
  canonical (_normalize_file_id settings uuid4 value).
Proof.
  intros H.
  destruct (normalize_cases settings uuid4 value) as [(_ & v & _ & -> & Hv) | [Hf ->]].
  - now apply clean_canonical.
  - destruct H as [H | H]; [congruence|]. unfold defaults_canonical in H.
    destruct (RAG_DEFAULT_FILE_IDS settings); [apply generated_id_canonical | exact H].
Qed.

Lemma normalize_of_canonical (settings : Settings) (uuid4 : N) (s : string) :
  canonical s -> _normalize_file_id settings uuid4 (Some s) = s.
Proof.
  intros [Hn Hc]. unfold _normalize_file_id.
  apply str_truthy_nonempty in Hn. rewrite Hn, Hc, Hn. reflexivity.
Qed.

Lemma canonical_matches (s : string) : canonical s -> matches_id_pattern s = true.
Proof.
  intros H. pose proof (canonical_shape s H) as Hs. destruct H as [Hn _].
  apply str_truthy_nonempty in Hn. unfold matches_id_pattern. rewrite Hn.
  unfold canonical_chars in Hs.
  apply andb_true_iff in Hs as [Hs _]. apply andb_true_iff in Hs as [Hs _].
  now apply andb_true_iff in Hs as [Hs _].
Qed.

Lemma canonical_tidy (s : string) : canonical s -> tidy is_us s = true.
Proof.
  intros H. pose proof (canonical_shape s H) as Hs. unfold canonical_chars in Hs.
  apply andb_true_iff in Hs as [Hs He]. apply andb_true_iff in Hs as [Hs Hb].
  apply andb_true_iff in Hs as [_ Hn]. unfold tidy. now rewrite Hn, Hb, He.
Qed.

End Normalizer.

Section NormalizerClaims.

Import Documents.

(** C4 (as amended).  When the cleaned form of the input is not empty,
    and for every input at all when the list of configured default
    identifiers is empty or starts with a canonical identifier, the
    normalizer returns a non-empty string matching [^[a-z0-9_-]+$], and
    normalizing the result again (with any other random draw) returns
    it unchanged. *)
Theorem normalize_file_id_canonical_idempotent
    (settings : Settings) (uuid4 uuid4' : N) (value : option string) :
  cleans_to_nonempty value = true \/ defaults_canonical settings ->
  let r := _normalize_file_id settings uuid4 value in
  r <> "" /\ matches_id_pattern r = true /\
  _normalize_file_id settings uuid4' (Some r) = r.
Proof.
  intros H r. pose proof (normalize_canonical settings uuid4 value H) as Hc.
  fold r in Hc. repeat split.
  - apply Hc.
  - now apply canonical_matches.
  - now apply normalize_of_canonical.
Qed.

Lemma normalize_file_id_canonical_idempotent_witness :
  (cleans_to_nonempty (Some " My Doc.PDF ") = true \/
   defaults_canonical (Samples.with_defaults ["My Doc"])) /\
  let r := _normalize_file_id (Samples.with_defaults ["My Doc"]) 7 (Some " My Doc.PDF ") in
  r <> "" /\ matches_id_pattern r = true /\
  _normalize_file_id (Samples.with_defaults ["My Doc"]) 9 (Some r) = r.
Proof.
  split; [left; reflexivity|].
  apply (normalize_file_id_canonical_idempotent
           (Samples.with_defaults ["My Doc"]) 7 9 (Some " My Doc.PDF ")).
  left; reflexivity.
Defined.

(** C4 fails as stated: with the default identifier ["My Doc"]
    configured, an absent input yields ["My Doc"], which does not match
    the pattern and is not a fixed point; with the default [""]
    configured the result is empty. *)
Lemma normalize_file_id_default_verbatim :
  _normalize_file_id (Samples.with_defaults ["My Doc"]) 7 None = "My Doc" /\
  matches_id_pattern "My Doc" = false /\
  _normalize_file_id (Samples.with_defaults ["My Doc"]) 7 (Some "My Doc") = "my_doc" /\
  _normalize_file_id (Samples.with_defaults [""]) 7 (Some "  ") = "".
Proof. repeat split. Qed.

(** C5 (as amended).  Under the same condition the identifier has no
    two consecutive underscores and neither begins nor ends with an
    underscore; the hyphen is left where it stands. *)
Theorem normalize_file_id_underscores_tidy
    (settings : Settings) (uuid4 : N) (value : option string) :
  cleans_to_nonempty value = true \/ defaults_canonical settings ->
  tidy (is_char "_") (_normalize_file_id settings uuid4 value) = true.
Proof.
  intros H. apply canonical_tidy. now apply normalize_canonical.
Qed.

Lemma normalize_file_id_underscores_tidy_witness :
  (cleans_to_nonempty (Some "__a__b--c_") = true \/ defaults_canonical Samples.settings) /\
  tidy (is_char "_") (_normalize_file_id Samples.settings 7 (Some "__a__b--c_")) = true.
Proof.
  split; [left; reflexivity|].
  apply (normalize_file_id_underscores_tidy Samples.settings 7 (Some "__a__b--c_")).
  left; reflexivity.
Defined.

(** C5 fails as stated: hyphens are neither collapsed nor stripped. *)
Lemma normalize_file_id_keeps_hyphens :
  _normalize_file_id Samples.settings 7 (Some "-a--b-") = "-a--b-" /\
  no_repeat is_separator (chars "-a--b-") = false /\
  starts_with is_separator (chars "-a--b-") = true /\
  ends_with is_separator (chars "-a--b-") = true /\
  tidy is_separator (_normalize_file_id Samples.settings 7 (Some "-a--b-")) = false.
Proof. repeat split. Qed.

End NormalizerClaims.

(* ================================================================== *)
(** * Facts about [datetime] arithmetic *)
(* ================================================================== *)

Section ClockFacts.

Import Clock.







End ClockFacts.

(* ================================================================== *)
(** * The service token issuer *)
(* ================================================================== *)

Section TokenIssuer.

Variable jwt_encode : jwt_payload -> string -> string -> result string.




End TokenIssuer.



(* ================================================================== *)
(** * The proxy endpoints *)
(* ================================================================== *)

Section Proxy.

Import Documents.

Variable jwt_encode : jwt_payload -> string -> string -> result string.
Variable http_send : request -> result response.

Lemma rag_response_failure (r : response) (f : client_failure) :
  failure_of (Ok r) = Some f -> rag_response r = Raise (surfaced f).
Proof.
  unfold failure_of, rag_response.
  destruct (400 <=? status_code r).
  - now intros [= <-].
  - destruct (announces_json r); [|discriminate].
    destruct (json_body r); [discriminate|]. now intros [= <-].
Qed.

Lemma rag_request_failure (settings : Settings) (now : Z) (method path : string)
    (data : option (list (string * string)))
    (files : option (list (string * upload_part)))
    (headers : list (string * string)) (f : client_failure) :
  _rag_headers jwt_encode settings now = Ok headers ->
  failure_of (http_send (rag_request_of settings method path data files headers))
    = Some f ->
  _rag_request jwt_encode http_send settings now method path data files
    = Raise (surfaced f).
Proof.
  unfold _rag_request. intros ->. cbn [bind].
  destruct (http_send _) as [r|e]; cbn [bind].
  - apply rag_response_failure.
  - now intros [= <-].
Qed.

(** The request of an operation is the helper's request for it, under
    the headers [_rag_headers] returned. *)
Lemma endpoint_request_headers (settings : Settings) (now : Z) (uuid4 : N)
    (op : operation) (req : request) :
  endpoint_request jwt_encode settings now uuid4 op = Ok req ->
  exists headers,
    _rag_headers jwt_encode settings now = Ok headers /\
    req = match op with
          | Upload file file_id entity_id =>
              rag_request_of settings "POST" "/embed"
                (Some (upload_payload settings (_normalize_file_id settings uuid4 file_id)
                         entity_id))
                (Some (upload_files file)) headers
          | ListIds => rag_request_of settings "GET" "/ids" None None headers
          | Preview file_id =>
              rag_request_of settings "GET"
                (preview_path (_normalize_file_id settings uuid4 (Some file_id)))
                None None headers
          end.
Proof.
  unfold endpoint_request.
  destruct (_rag_headers jwt_encode settings now) as [headers|e]; cbn [bind];
    [|discriminate].
  intros [= <-]. now exists headers.
Qed.

(** C3 (as amended).  Whatever the operation (upload, list, preview), a
    failure of the RAG client on the request the operation hands to it
    never yields a normal result: an upstream status of 400 or more
    raises an [HTTPException] carrying that same status and the message
    ["RAG request failed: "] followed by the upstream body (or the
    reason phrase when the body is empty), while a transport failure or
    a parsing failure leaves the endpoint as the exception the client
    raised, unconverted. *)
Theorem proxy_failure_surfaces (settings : Settings) (now : Z) (uuid4 : N)
    (op : operation) (req : request) (f : client_failure) :
  endpoint_request jwt_encode settings now uuid4 op = Ok req ->
  failure_of (http_send req) = Some f ->
  endpoint jwt_encode http_send settings now uuid4 op = Raise (surfaced f) /\
  match f with
  | StatusFailure status body reason =>
      400 <= status /\
      surfaced f = HTTPException status
                     ("RAG request failed: " ++ (if str_truthy body then body else reason))
  | TransportFailure e | ParseFailure e => surfaced f = e
  end.
Proof.
  intros Hreq H. apply endpoint_request_headers in Hreq as (headers & Hheaders & ->).
  split.
  - destruct op as [file file_id entity_id | | file_id];
      unfold endpoint, upload_document, list_document_ids, preview_document;
      now rewrite (rag_request_failure _ _ _ _ _ _ _ _ Hheaders H).
  - destruct f as [status body reason | e | e]; try reflexivity.
    split; [|reflexivity].
    unfold failure_of in H. destruct (http_send _) as [r|e]; [|discriminate].
    destruct (400 <=? status_code r) eqn:E.
    + injection H as <- _ _. now apply Z.leb_le.
    + destruct (announces_json r); [|discriminate].
      destruct (json_body r); discriminate.
Qed.

End Proxy.

Lemma proxy_failure_surfaces_witness :
  Documents.endpoint_request Samples.encode Samples.settings 0 7 Documents.ListIds
    = Ok Samples.ids_request /\
  Documents.failure_of
    (Samples.upstream (Ok (Samples.error_response 500 "Internal Server Error" "boom"))
       Samples.ids_request)
    = Some (Documents.StatusFailure 500 "boom" "Internal Server Error") /\
  Documents.list_document_ids Samples.encode
    (Samples.upstream (Ok (Samples.error_response 500 "Internal Server Error" "boom")))
    Samples.settings 0
    = Raise (HTTPException 500 "RAG request failed: boom").
Proof.
  split; [reflexivity|]. split; [reflexivity|].
  exact (proj1 (proxy_failure_surfaces Samples.encode
                  (Samples.upstream (Ok (Samples.error_response 500 "Internal Server Error" "boom")))
                  Samples.settings 0 7 Documents.ListIds Samples.ids_request
                  (Documents.StatusFailure 500 "boom" "Internal Server Error")
                  eq_refl eq_refl)).
Defined.

(** C3 fails as stated: a timeout on the list endpoint and a malformed
    JSON body on the preview endpoint reach the caller as the client's
    own exceptions, not as HTTP errors. *)
Lemma proxy_network_failure_not_converted :
  Documents.endpoint Samples.encode
    (Samples.upstream (Raise (TimeoutException "timed out")))
    Samples.settings 0 7 Documents.ListIds
    = Raise (TimeoutException "timed out") /\
  Documents.is_http_error (TimeoutException "timed out") = false /\
  Documents.endpoint Samples.encode (Samples.upstream (Ok Samples.garbled_response))
    Samples.settings 0 7 (Documents.Preview "kb")
    = Raise (ValueError "Expecting value") /\
  Documents.is_http_error (ValueError "Expecting value") = false.
Proof. repeat split. Qed.

(* ================================================================== *)
(** * The search tool: what reaches the network *)
(* ================================================================== *)

Section SearchRequests.

Import RagSearch.

Variable jwt_encode : jwt_payload -> string -> string -> result string.
Variable http_send : request -> result response.
Variable format_float_3f : pyfloat -> string.
Variable format_int_3f : Z -> result string.
Variable py_str : pyobj -> string.
Variable textwrap_shorten : string -> Z -> string -> string.

Local Abbreviation arun :=
  (_arun jwt_encode http_send format_float_3f format_int_3f py_str textwrap_shorten).

Lemma is_blank_spec (s : string) : is_blank s = true <-> str_strip s = "".
Proof.
  unfold is_blank. destruct (str_strip s); simpl; split; congruence.
Qed.

Lemma blank_query_test (query : string) :
  negb (str_truthy query) || negb (str_truthy (str_strip query)) = is_blank query.
Proof.
  unfold is_blank. destruct query as [|c q]; reflexivity.
Qed.

Lemma compose_payload_nonempty (self : RAGSearchTool) (query fid : string)
    (rest : list string) (top_k : Z) (entity_id : option string) :
  _compose_payload self query (fid :: rest) top_k entity_id =
  Ok (endpoint_of self rest, payload_of self query fid rest top_k entity_id).
Proof.
  unfold _compose_payload, payload_of, endpoint_of.
  destruct rest as [|fid' rest']; cbn [List.length Nat.ltb Nat.leb bind dict_set String.eqb];
    simpl; destruct (opt_or entity_id (_entity_id self)) as [e|]; simpl;
    try destruct (str_truthy e); reflexivity.
Qed.

(** The ways through [_arun]: the two fixed messages; past them, the
    headers raise and nothing is sent, or one request is made. *)
Lemma arun_cases (self : RAGSearchTool) (now : Z) (query : string)
    (file_ids : option (list string)) (top_k : option Z) (entity_id : option string) :
  (is_blank query = true /\
   arun self now query file_ids top_k entity_id = ([], Ok QUERY_REQUIRED)) \/
  (is_blank query = false /\ resolve_file_ids self file_ids = [] /\
   arun self now query file_ids top_k entity_id = ([], Ok NO_FILE_IDS)) \/
  (is_blank query = false /\
   exists fid rest,
     resolve_file_ids self file_ids = fid :: rest /\
     ((exists e,
         _prepare_headers jwt_encode self now = Raise e /\
         arun self now query file_ids top_k entity_id = ([], Raise e)) \/
      (exists headers result,
         _prepare_headers jwt_encode self now = Ok headers /\
         arun self now query file_ids top_k entity_id =
           ([query_request (_base_url self ++ endpoint_of self rest)
               (payload_of self (str_strip query) fid rest (resolve_top_k self top_k)
                  entity_id)
               headers],
            result)))).
Proof.
  unfold _arun. rewrite blank_query_test.
  destruct (is_blank query); [now left | right].
  destruct (resolve_file_ids self file_ids) as [|fid rest] eqn:E; [now left | right].
  split; [reflexivity|]. rewrite compose_payload_nonempty.
  exists fid, rest. split; [reflexivity|].
  destruct (_prepare_headers jwt_encode self now) as [headers|e].
  - right. eexists headers, _. split; reflexivity.
  - left. exists e. split; reflexivity.
Qed.

(** Past the two checks and with its headers, [_arun] makes its
    request and handles what the [try] gives. *)
Lemma arun_sent (self : RAGSearchTool) (now : Z) (query : string)
    (file_ids : option (list string)) (top_k : option Z) (entity_id : option string)
    (fid : string) (rest : list string) (headers : list (string * string)) :
  is_blank query = false ->
  resolve_file_ids self file_ids = fid :: rest ->
  _prepare_headers jwt_encode self now = Ok headers ->
  arun self now query file_ids top_k entity_id =
    let req :=
      query_request (_base_url self ++ endpoint_of self rest)
        (payload_of self (str_strip query) fid rest (resolve_top_k self top_k) entity_id)
        headers in
    ([req],
     match post_query http_send req with
     | Ok data => _format_results format_float_3f format_int_3f py_str textwrap_shorten data
     | Raise e => on_exception e
     end).
Proof.
  intros Hb Hids Hh. unfold _arun. rewrite blank_query_test, Hb, Hids.
  rewrite compose_payload_nonempty, Hh. reflexivity.
Qed.

Lemma filter_truthy_nil (l : list string) :
  filter str_truthy l = [] <-> Forall (fun fid => fid = "") l.
Proof.
  induction l as [|fid t IH]; simpl.
  - split; [constructor | reflexivity].
  - destruct fid as [|c fid']; simpl.
    + rewrite IH. split; [now constructor | now inversion 1].
    + split; [discriminate | inversion 1; discriminate].
Qed.

(** C7 (as amended).  For a blank query (empty or whitespace only) the
    tool returns the "query is required" message and hands no request to
    the HTTP client.  For a non-blank query, when every identifier of
    [file_ids or defaults] is the empty string, it returns the "no file
    identifiers" message, again without a request; an identifier that is
    not empty, be it whitespace only, is kept and, the request headers
    once built, a request is made under these headers. *)
Theorem arun_short_circuits (self : RAGSearchTool) (now : Z) (query : string)
    (file_ids : option (list string)) (top_k : option Z) (entity_id : option string) :
  (is_blank query = true ->
   arun self now query file_ids top_k entity_id = ([], Ok QUERY_REQUIRED)) /\
  (is_blank query = false ->
   Forall (fun fid => fid = "") (candidate_file_ids self file_ids) ->
   arun self now query file_ids top_k entity_id = ([], Ok NO_FILE_IDS)) /\
  (is_blank query = false ->
   Exists (fun fid => fid <> "") (candidate_file_ids self file_ids) ->
   forall headers,
     _prepare_headers jwt_encode self now = Ok headers ->
     exists req result,
       arun self now query file_ids top_k entity_id = ([req], result) /\
       req_headers req = headers).
Proof.
  destruct (arun_cases self now query file_ids top_k entity_id)
    as [[Hb ->] | [(Hb & Hids & ->)
                  | (Hb & fid & rest & Hids
                     & [(e & He & ->) | (headers & result & Hh & ->)])]];
    unfold resolve_file_ids in *.
  - split; [reflexivity|]. split; congruence.
  - apply filter_truthy_nil in Hids. split; [congruence|]. split; [reflexivity|].
    intros _ Hex. apply Exists_exists in Hex as (fid & Hin & Hne).
    rewrite Forall_forall in Hids. now specialize (Hids fid Hin).
  - split; [congruence|]. split.
    + intros _ Hall. apply filter_truthy_nil in Hall. congruence.
    + intros _ _ headers Hh. congruence.
  - split; [congruence|]. split.
    + intros _ Hall. apply filter_truthy_nil in Hall. congruence.
    + intros _ _ headers' Hh'. rewrite Hh in Hh'. injection Hh' as <-.
      eexists _, result. split; reflexivity.
Qed.

(** C2 (as amended).  The ['k'] field of every request the tool makes is
    1 for a negative explicit [top_k], the configured default floored
    to 1 when [top_k] is absent or 0, and the explicit value when it is
    positive. *)
Theorem arun_top_k_sent (settings : Settings) (now : Z) (query : string)
    (file_ids : option (list string)) (top_k : option Z) (entity_id : option string)
    (req : request) :
  In req (fst (arun (init settings) now query file_ids top_k entity_id)) ->
  exists payload,
    req_json req = Some payload /\
    dict_get payload "k" =
      PInt match top_k with
           | Some k =>
               if k <? 0 then 1
               else if k =? 0 then Z.max 1 (RAG_TOP_K settings)
               else k
           | None => Z.max 1 (RAG_TOP_K settings)
           end.
Proof.
  destruct (arun_cases (init settings) now query file_ids top_k entity_id)
    as [[_ ->] | [(_ & _ & ->)
                 | (_ & fid & rest & _ & [(e & _ & ->) | (headers & result & _ & ->)])]];
    try (simpl; tauto).
  intros [<- | []]. eexists. split; [reflexivity|].
  unfold payload_of. cbn [List.app dict_get String.eqb Ascii.eqb Bool.eqb].
  f_equal. unfold resolve_top_k. cbn [_default_top_k init].
  destruct top_k as [k|].
  - destruct (Z.eqb_spec k 0); destruct (Z.ltb_spec k 0);
      repeat match goal with
             | |- context [?a <? ?b] => destruct (Z.ltb_spec a b)
             end; lia.
  - destruct (Z.ltb_spec (Z.max 1 (RAG_TOP_K settings)) 1); lia.
Qed.

(** C8 (as amended).  Every request the tool hands to the HTTP client
    is a POST whose JSON body holds the query, stripped of the
    whitespace around it, under ['query'] and the resolved [top_k] under
    ['k'].  With exactly
    one resolved identifier the body holds it under ['file_id'] (and has
    no ['file_ids']) and the URL ends in the single-query endpoint; with
    more than one the body holds the whole list, in order, under
    ['file_ids'] (and has no ['file_id']) and the URL ends in the
    multi-query endpoint.  ['entity_id'] is in the body exactly when the
    explicit or the configured entity is a non-empty string, the
    explicit one having precedence. *)
Theorem arun_outbound_request (self : RAGSearchTool) (now : Z) (query : string)
    (file_ids : option (list string)) (top_k : option Z) (entity_id : option string)
    (req : request) :
  In req (fst (arun self now query file_ids top_k entity_id)) ->
  let ids := resolve_file_ids self file_ids in
  exists payload,
    req_method req = "POST" /\ req_json req = Some payload /\
    dict_get payload "query" = PStr (str_strip query) /\
    dict_get payload "k" = PInt (resolve_top_k self top_k) /\
    (forall fid, ids = [fid] ->
       dict_get payload "file_id" = PStr fid /\ dict_has payload "file_ids" = false /\
       req_url req = _base_url self ++ _query_endpoint self) /\
    ((1 < List.length ids)%nat ->
       dict_get payload "file_ids" = PList (map PStr ids) /\
       dict_has payload "file_id" = false /\
       req_url req = _base_url self ++ _query_multiple_endpoint self) /\
    dict_has payload "entity_id" = opt_truthy entity_id || opt_truthy (_entity_id self) /\
    (forall e, opt_or entity_id (_entity_id self) = Some e -> e <> "" ->
       dict_get payload "entity_id" = PStr e).
Proof.
  destruct (arun_cases self now query file_ids top_k entity_id)
    as [[_ ->] | [(_ & _ & ->)
                 | (_ & fid & rest & Hids
                    & [(e & _ & ->) | (headers & result & _ & ->)])]];
    try (simpl; tauto).
  intros [<- | []] ids. unfold ids. rewrite Hids. clear ids Hids.
  exists (payload_of self (str_strip query) fid rest (resolve_top_k self top_k) entity_id).
  unfold payload_of, endpoint_of, opt_or, query_request.
  cbn [req_method req_json req_url].
  do 4 (split; [reflexivity|]).
  split; [|split; [|split]].
  - intros fid0 [= -> ->]. simpl.
    destruct (if opt_truthy entity_id then entity_id else _entity_id self) as [e|];
      [destruct (str_truthy e)|]; repeat split.
  - intros Hlen. destruct rest as [|fid' rest']; [simpl in Hlen; lia|]. simpl.
    destruct (if opt_truthy entity_id then entity_id else _entity_id self) as [e|];
      [destruct (str_truthy e)|]; repeat split.
  - destruct entity_id as [[|c e]|], (_entity_id self) as [[|c' e']|];
      destruct rest; reflexivity.
  - intros e He Hne. rewrite He. apply str_truthy_nonempty in Hne. rewrite Hne.
    destruct rest; reflexivity.
Qed.

End SearchRequests.

Lemma arun_short_circuits_witness :
  RagSearch.is_blank "   " = true /\
  Samples.run_tool Samples.timeout Samples.tool 0 "   " (Some ["kb"]) None None
    = ([], Ok RagSearch.QUERY_REQUIRED) /\
  RagSearch.is_blank "hello" = false /\
  Forall (fun fid => fid = "") (RagSearch.candidate_file_ids Samples.tool (Some [""])) /\
  Samples.run_tool Samples.timeout Samples.tool 0 "hello" (Some [""]) None None
    = ([], Ok RagSearch.NO_FILE_IDS).
Proof.
  split; [reflexivity|].
  split.
  { apply (arun_short_circuits Samples.encode (Samples.upstream Samples.timeout)
             Samples.float_3f Samples.int_3f Samples.str_other Samples.shorten
             Samples.tool 0 "   " (Some ["kb"]) None None).
    reflexivity. }
  split; [reflexivity|].
  split; [repeat constructor|].
  apply (arun_short_circuits Samples.encode (Samples.upstream Samples.timeout)
           Samples.float_3f Samples.int_3f Samples.str_other Samples.shorten
           Samples.tool 0 "hello" (Some [""]) None None).
  - reflexivity.
  - repeat constructor.
Defined.

(** C7 fails as stated: the only identifier is blank (whitespace only),
    so no non-blank identifier remains, and yet a request is made. *)
Lemma arun_blank_file_id_is_sent :
  forallb RagSearch.is_blank (RagSearch.candidate_file_ids Samples.tool (Some ["   "])) = true /\
  Samples.run_tool Samples.timeout Samples.tool 0 "hello" (Some ["   "]) None None
    = ([RagSearch.query_request "http://rag:8000/query"
          [("query", PStr "hello"); ("k", PInt 5); ("file_id", PStr "   ")]
          [("Content-Type", "application/json");
           ("Authorization", "Bearer HS256.agent_service")]],
       Ok "RAG search timed out. Please try again with a simpler query.").
Proof. split; reflexivity. Qed.

Lemma arun_top_k_sent_witness :
  In (RagSearch.query_request "http://rag:8000/query"
        [("query", PStr "hello"); ("k", PInt 1); ("file_id", PStr "kb")]
        [("Content-Type", "application/json");
         ("Authorization", "Bearer HS256.agent_service")])
     (fst (Samples.run_tool Samples.timeout (RagSearch.init Samples.settings) 0
             "hello" (Some ["kb"]) (Some (-3)) None)) /\
  exists payload,
    Some [("query", PStr "hello"); ("k", PInt 1); ("file_id", PStr "kb")] = Some payload /\
    dict_get payload "k" = PInt 1.
Proof.
  split; [left; reflexivity|].
  apply (arun_top_k_sent Samples.encode (Samples.upstream Samples.timeout)
           Samples.float_3f Samples.int_3f Samples.str_other Samples.shorten
           Samples.settings 0 "hello" (Some ["kb"]) (Some (-3)) None
           (RagSearch.query_request "http://rag:8000/query"
              [("query", PStr "hello"); ("k", PInt 1); ("file_id", PStr "kb")]
              [("Content-Type", "application/json");
               ("Authorization", "Bearer HS256.agent_service")])).
  left; reflexivity.
Defined.

(** C2 fails as stated: with the default 5 configured, an explicit
    [top_k] of 0 is sent as 5, not as 1. *)
Lemma arun_top_k_zero_uses_default :
  RagSearch._default_top_k Samples.tool = 5 /\
  map (fun req => option_map (fun payload => dict_get payload "k") (req_json req))
      (fst (Samples.run_tool Samples.timeout Samples.tool 0 "hello" (Some ["kb"])
              (Some 0) None))
    = [Some (PInt 5)].
Proof. split; reflexivity. Qed.

Lemma arun_outbound_request_witness :
  In (RagSearch.query_request "http://rag:8000/query_multiple"
        [("query", PStr "hello"); ("k", PInt 3);
         ("file_ids", PList [PStr "a"; PStr "b"]); ("entity_id", PStr "acme")]
        [("Content-Type", "application/json");
         ("Authorization", "Bearer HS256.agent_service")])
     (fst (Samples.run_tool Samples.timeout Samples.tool 0 " hello " (Some ["a"; ""; "b"])
             (Some 3) (Some "acme"))) /\
  exists payload,
    Some [("query", PStr "hello"); ("k", PInt 3);
          ("file_ids", PList [PStr "a"; PStr "b"]); ("entity_id", PStr "acme")]
      = Some payload /\
    dict_get payload "file_ids" = PList [PStr "a"; PStr "b"] /\
    dict_has payload "entity_id" = true.
Proof.
  split; [left; reflexivity|].
  destruct (arun_outbound_request Samples.encode (Samples.upstream Samples.timeout)
              Samples.float_3f Samples.int_3f Samples.str_other Samples.shorten
              Samples.tool 0 " hello " (Some ["a"; ""; "b"]) (Some 3) (Some "acme")
              (RagSearch.query_request "http://rag:8000/query_multiple"
                 [("query", PStr "hello"); ("k", PInt 3);
                  ("file_ids", PList [PStr "a"; PStr "b"]); ("entity_id", PStr "acme")]
                 [("Content-Type", "application/json");
                  ("Authorization", "Bearer HS256.agent_service")])
              (or_introl eq_refl))
    as (payload & _ & Hjson & _ & _ & _ & Hmulti & Hentity & _).
  exists payload. split; [exact Hjson|].
  split; [exact (proj1 (Hmulti ltac:(simpl; lia))) | exact Hentity].
Defined.

(** C8 fails as stated: the body does not hold the query [" hello "]
    but the stripped ["hello"]; and with the empty string as explicit
    entity (none being configured) an explicit entity value exists, yet
    the body has no ['entity_id']. *)
Lemma arun_query_sent_stripped :
  map (fun req => option_map (fun payload => dict_get payload "query") (req_json req))
      (fst (Samples.run_tool Samples.timeout Samples.tool 0 " hello " (Some ["kb"])
              None None))
    = [Some (PStr "hello")] /\
  PStr "hello" <> PStr " hello " /\
  RagSearch._entity_id Samples.tool = None /\
  map (fun req => option_map (fun payload => dict_has payload "entity_id") (req_json req))
      (fst (Samples.run_tool Samples.timeout Samples.tool 0 "hello" (Some ["kb"])
              None (Some "")))
    = [Some false].
Proof. repeat split. discriminate. Qed.

(* ================================================================== *)
(** * The result formatter *)
(* ================================================================== *)

Section Formatter.

Import RagSearch.

Variable format_float_3f : pyfloat -> string.
Variable format_int_3f : Z -> result string.
Variable py_str : pyobj -> string.
Variable textwrap_shorten : string -> Z -> string -> string.

Local Abbreviation fmt_entry :=
  (format_entry format_float_3f format_int_3f py_str textwrap_shorten).
Local Abbreviation fmt_loop :=
  (format_loop format_float_3f format_int_3f py_str textwrap_shorten).
Local Abbreviation fmt_results :=
  (_format_results format_float_3f format_int_3f py_str textwrap_shorten).

Local Abbreviation renders_as :=
  (renders_as format_float_3f format_int_3f py_str textwrap_shorten).

Lemma str_of_nat_head (n : nat) :
  exists c s, str_of_nat n = String c s /\ is_digit c = true.
Proof.
  unfold str_of_nat.
  assert (H : Nat.to_uint n <> Decimal.Nil).
  { rewrite <- (Unsigned.of_to n) at 1. rewrite Unsigned.to_of. apply unorm_nonnil. }
  destruct (Nat.to_uint n); [congruence | ..]; simpl; eexists _, _; split; reflexivity.
Qed.

Lemma format_entry_skipped (idx : nat) (item : pyobj) :
  is_skipped item = true -> fmt_entry idx item = Ok None.
Proof.
  unfold is_skipped, format_entry. now destruct (fst (entry_parts item)).
Qed.

Lemma render_document_head (idx : nat) (document : dict) (score : pyobj) (line : string) :
  render_document format_float_3f format_int_3f py_str textwrap_shorten idx document score
    = Ok line ->
  exists rest, line = str_of_nat idx ++ ". score=" ++ rest.
Proof.
  unfold render_document.
  repeat match goal with
         | |- context [bind ?r _] => destruct r; simpl bind; try discriminate
         end.
  intros [= <-]. eexists. reflexivity.
Qed.

Lemma format_entry_kept (idx : nat) (item : pyobj) (r : option string) :
  is_skipped item = false -> fmt_entry idx item = Ok r ->
  exists rest, r = Some (str_of_nat idx ++ ". score=" ++ rest).
Proof.
  unfold is_skipped, format_entry.
  destruct (fst (entry_parts item)) as [| | | | | |document]; try discriminate.
  intros _. destruct (render_document _ _ _ _ _ _ _) as [line|e] eqn:E;
    simpl bind; [|discriminate].
  intros [= <-]. destruct (render_document_head _ _ _ _ E) as [rest ->]. eauto.
Qed.

Lemma kept_from_cons (start : nat) (item : pyobj) (rest : list pyobj) :
  kept_from start (item :: rest) =
  if is_skipped item then kept_from (S start) rest
  else (start, item) :: kept_from (S start) rest.
Proof.
  unfold kept_from, enumerate_from. simpl. now destruct (is_skipped item).
Qed.

Lemma kept_from_nil (start : nat) (items : list pyobj) :
  kept_from start items = [] <-> forallb is_skipped items = true.
Proof.
  revert start. induction items as [|item rest IH]; intros start.
  - split; reflexivity.
  - rewrite kept_from_cons. simpl. destruct (is_skipped item); simpl.
    + apply IH.
    + split; discriminate.
Qed.

Lemma kept_from_position (start : nat) (items : list pyobj) (p : nat) (item : pyobj) :
  In (p, item) (kept_from start items) ->
  (start <= p)%nat /\ nth_error items (p - start) = Some item /\ is_skipped item = false.
Proof.
  revert start. induction items as [|x rest IH]; intros start; [intros []|].
  rewrite kept_from_cons. intros H.
  assert (Hrest : In (p, item) (kept_from (S start) rest) ->
                  (start <= p)%nat /\ nth_error (x :: rest) (p - start) = Some item /\
                  is_skipped item = false).
  { intros Hin. destruct (IH _ Hin) as (Hle & Hnth & Hk). repeat split; [lia | | exact Hk].
    replace (p - start)%nat with (S (p - S start)) by lia. exact Hnth. }
  destruct (is_skipped x) eqn:Ex; [now apply Hrest|].
  destruct H as [[= <- <-] | Hin]; [|now apply Hrest].
  rewrite Nat.sub_diag. repeat split; [lia | exact Ex].
Qed.

(** The loop against the comprehension: it succeeds exactly when every
    kept entry renders, and then appends their lines in order. *)
Lemma format_loop_sound (items : list pyobj) :
  forall (idx : nat) (acc chunks : list string),
  fmt_loop idx items acc = Ok chunks ->
  exists lines, chunks = (acc ++ lines)%list /\ Forall2 renders_as (kept_from idx items) lines.
Proof.
  induction items as [|item rest IH]; intros idx acc chunks.
  - simpl. intros [= <-]. exists []. now rewrite List.app_nil_r.
  - cbn [format_loop]. rewrite kept_from_cons.
    destruct (is_skipped item) eqn:Es.
    + rewrite (format_entry_skipped idx item Es). simpl bind. apply IH.
    + destruct (fmt_entry idx item) as [r|e] eqn:Ee; simpl bind; [|discriminate].
      destruct (format_entry_kept idx item r Es Ee) as [tail ->].
      intros H. destruct (IH _ _ _ H) as (lines & -> & Hall).
      eexists (_ :: lines). rewrite <- List.app_assoc. split; [reflexivity|].
      constructor; [exact Ee | exact Hall].
Qed.

Lemma format_loop_complete (items : list pyobj) :
  forall (idx : nat) (acc lines : list string),
  Forall2 renders_as (kept_from idx items) lines ->
  fmt_loop idx items acc = Ok (acc ++ lines)%list.
Proof.
  induction items as [|item rest IH]; intros idx acc lines.
  - simpl. inversion 1. now rewrite List.app_nil_r.
  - cbn [format_loop]. rewrite kept_from_cons.
    destruct (is_skipped item) eqn:Es.
    + rewrite (format_entry_skipped idx item Es). simpl bind. apply IH.
    + inversion 1 as [|e line es ls He Hes]; subst. unfold renders_as in He.
      simpl in He. rewrite He. simpl bind. rewrite (IH _ _ _ Hes).
      now rewrite <- List.app_assoc.
Qed.

Lemma renders_as_head (e : nat * pyobj) (line : string) :
  is_skipped (snd e) = false -> renders_as e line ->
  exists rest, line = str_of_nat (fst e) ++ ". score=" ++ rest.
Proof.
  intros Hk Hr. destruct (format_entry_kept _ _ _ Hk Hr) as [rest [= ->]].
  now exists rest.
Qed.

Lemma joined_lines_not_fallback (e : nat * pyobj) (line : string) (lines : list string) :
  is_skipped (snd e) = false -> renders_as e line ->
  str_join newline (line :: lines) <> NO_CONTEXT.
Proof.
  intros Hk Hr. destruct (renders_as_head e line Hk Hr) as [rest ->].
  destruct (str_of_nat_head (fst e)) as (c & s & -> & Hc).
  destruct lines; simpl; intros [= -> _]; discriminate.
Qed.

Lemma kept_from_head_kept (start : nat) (items : list pyobj) (e : nat * pyobj)
    (es : list (nat * pyobj)) :
  kept_from start items = e :: es -> is_skipped (snd e) = false.
Proof.
  intros H. destruct e as [p item].
  apply (kept_from_position start items p item). rewrite H. now left.
Qed.

(** What [_format_results] returns on an iterable, truthy input. *)
Lemma format_results_iterable (data : pyobj) (items : list pyobj) :
  truthy data = true -> py_iter data = Ok items ->
  fmt_results data =
  (chunks <- fmt_loop 1 items [] ;;
   match chunks with
   | [] => Ok NO_CONTEXT
   | _ :: _ => Ok (str_join newline chunks)
   end).
Proof. unfold _format_results. now intros -> ->. Qed.

(** C6 (as amended).  The formatter returns exactly the fallback string
    when its input is falsy (absent, an empty list, dict or string, but
    also zero or false) and when the input is truthy and iterable and
    every entry is skipped; it returns the fallback in no other case.
    When some entry is kept and every kept entry renders, it returns
    the newline-joined lines, which differ from the fallback string. *)
Theorem format_results_fallback (data : pyobj) :
  (truthy data = false -> fmt_results data = Ok NO_CONTEXT) /\
  (forall items,
     truthy data = true -> py_iter data = Ok items -> forallb is_skipped items = true ->
     fmt_results data = Ok NO_CONTEXT) /\
  (fmt_results data = Ok NO_CONTEXT ->
   truthy data = false \/
   exists items, py_iter data = Ok items /\ forallb is_skipped items = true) /\
  (forall items lines,
     truthy data = true -> py_iter data = Ok items -> forallb is_skipped items = false ->
     Forall2 renders_as (kept_entries items) lines ->
     fmt_results data = Ok (str_join newline lines) /\
     str_join newline lines <> NO_CONTEXT).
Proof.
  split; [|split; [|split]].
  - unfold _format_results. now intros ->.
  - intros items Ht Hi Hs. rewrite (format_results_iterable data items Ht Hi).
    apply (kept_from_nil 1) in Hs.
    rewrite (format_loop_complete items 1 [] []) by (rewrite Hs; constructor).
    reflexivity.
  - intros H. destruct (truthy data) eqn:Ht; [right | now left].
    destruct (py_iter data) as [items|e] eqn:Hi;
      [|unfold _format_results in H; rewrite Ht, Hi in H; discriminate].
    rewrite (format_results_iterable data items Ht Hi) in H.
    destruct (fmt_loop 1 items []) as [chunks|e] eqn:Hl; simpl bind in H; [|discriminate].
    destruct (format_loop_sound items 1 [] chunks Hl) as (lines & -> & Hall).
    exists items. split; [reflexivity|]. apply (kept_from_nil 1).
    remember (kept_from 1 items) as ks eqn:Ek.
    destruct Hall as [|e line es ls He Hes]; [reflexivity|].
    exfalso. simpl List.app in H. injection H.
    apply (joined_lines_not_fallback e line ls); [|exact He].
    now apply (kept_from_head_kept 1 items e es).
  - intros items lines Ht Hi Hs Hall.
    rewrite (format_results_iterable data items Ht Hi).
    rewrite (format_loop_complete items 1 [] lines Hall). simpl.
    unfold kept_entries in Hall. remember (kept_from 1 items) as ks eqn:Ek.
    destruct Hall as [|e line es ls He Hes].
    + symmetry in Ek. apply kept_from_nil in Ek. congruence.
    + split; [reflexivity|].
      apply (joined_lines_not_fallback e line ls); [|exact He].
      now apply (kept_from_head_kept 1 items e es).
Qed.

(** C10.  The lines of a non-fallback output correspond, in order, to
    the kept entries of the raw list, and each line begins with the
    1-based position its entry has in the raw list, skipped entries
    counted; so the indices can have gaps, and the first line can carry
    an index greater than 1. *)
Theorem format_results_line_index :
  (forall data out,
     fmt_results data = Ok out -> out <> NO_CONTEXT ->
     exists items lines,
       py_iter data = Ok items /\ out = str_join newline lines /\
       Forall2 (fun e line =>
                  (1 <= fst e)%nat /\ nth_error items (fst e - 1) = Some (snd e) /\
                  is_skipped (snd e) = false /\
                  exists rest, line = str_of_nat (fst e) ++ ". score=" ++ rest)
               (kept_entries items) lines) /\
  fmt_results (PList [PInt 7; PDict []; PNone;
                      PList [PDict [("page_content", PStr "b")]]]) =
    Ok ("2. score=n/a source=unknown source: " ++ textwrap_shorten "" 320 "..."
        ++ newline ++
        "4. score=n/a source=unknown source: " ++ textwrap_shorten "b" 320 "...").
Proof.
  split; [|reflexivity].
  intros data out H Hne. unfold _format_results in H.
  destruct (truthy data); simpl in H; [|congruence].
  destruct (py_iter data) as [items|e]; simpl bind in H; [|discriminate].
  destruct (fmt_loop 1 items []) as [chunks|e] eqn:Hl; simpl bind in H; [|discriminate].
  destruct (format_loop_sound items 1 [] chunks Hl) as (lines & -> & Hall).
  simpl List.app in H. exists items, lines. split; [reflexivity|]. split.
  - destruct lines; [congruence | now injection H].
  - unfold kept_entries.
    assert (Hpos : forall e, In e (kept_from 1 items) ->
                     (1 <= fst e)%nat /\ nth_error items (fst e - 1) = Some (snd e) /\
                     is_skipped (snd e) = false).
    { intros [p item]. apply kept_from_position. }
    clear H Hl. revert Hpos.
    induction Hall as [|e line es ls He Hes IH]; intros Hpos; constructor.
    + destruct (Hpos e (or_introl eq_refl)) as (H1 & H2 & H3).
      repeat split; try assumption. now apply renders_as_head.
    + apply IH. intros e' Hin. apply Hpos. now right.
Qed.

End Formatter.

Lemma format_results_fallback_witness :
  Samples.format_results PNone = Ok RagSearch.NO_CONTEXT /\
  Samples.format_results (PList [PInt 7; PStr "x"]) = Ok RagSearch.NO_CONTEXT /\
  Samples.format_results
    (PList [PInt 7; PList [PDict [("page_content", PStr "b")]; PInt 1]])
    = Ok "2. score=1.000 source=unknown source: b".
Proof.
  split; [|split].
  - apply (format_results_fallback Samples.float_3f Samples.int_3f Samples.str_other
             Samples.shorten PNone).
    reflexivity.
  - apply (proj1 (proj2 (format_results_fallback Samples.float_3f Samples.int_3f
                           Samples.str_other Samples.shorten
                           (PList [PInt 7; PStr "x"])))
             [PInt 7; PStr "x"]); reflexivity.
  - apply (proj2 (proj2 (proj2 (format_results_fallback Samples.float_3f Samples.int_3f
                                  Samples.str_other Samples.shorten
                                  (PList [PInt 7;
                                          PList [PDict [("page_content", PStr "b")];
                                                 PInt 1]]))))
             [PInt 7; PList [PDict [("page_content", PStr "b")]; PInt 1]]
             ["2. score=1.000 source=unknown source: b"]);
      try reflexivity.
    constructor; [reflexivity | constructor].
Defined.

(** C6 fails as stated: the numbers 0 and [false], neither empty nor
    absent, give the fallback; a non-empty list whose only entry is a
    valid document with a numeric body, and a non-zero number, give
    neither the fallback nor the joined lines, but an exception. *)
Lemma format_results_other_outcomes :
  Samples.format_results (PInt 0) = Ok RagSearch.NO_CONTEXT /\
  Samples.format_results (PBool false) = Ok RagSearch.NO_CONTEXT /\
  RagSearch.is_skipped (PList [PDict [("page_content", PInt 5)]; PInt 1]) = false /\
  Samples.format_results (PList [PList [PDict [("page_content", PInt 5)]; PInt 1]])
    = Raise AttributeError /\
  Samples.format_results (PInt 7) = Raise TypeError.
Proof. repeat split. Qed.

Lemma format_results_line_index_witness :
  Samples.format_results
    (PList [PInt 7; PDict []; PNone; PList [PDict [("page_content", PStr "b")]]])
    = Ok ("2. score=n/a source=unknown source: " ++ RagSearch.newline ++
          "4. score=n/a source=unknown source: b") /\
  exists items lines,
    RagSearch.py_iter
      (PList [PInt 7; PDict []; PNone; PList [PDict [("page_content", PStr "b")]]])
      = Ok items /\
    "2. score=n/a source=unknown source: " ++ RagSearch.newline ++
      "4. score=n/a source=unknown source: b" = str_join RagSearch.newline lines /\
    Forall2 (fun e line =>
               (1 <= fst e)%nat /\ nth_error items (fst e - 1) = Some (snd e) /\
               RagSearch.is_skipped (snd e) = false /\
               exists rest, line = str_of_nat (fst e) ++ ". score=" ++ rest)
            (RagSearch.kept_entries items) lines.
Proof.
  split; [reflexivity|].
  apply (proj1 (format_results_line_index Samples.float_3f Samples.int_3f
                  Samples.str_other Samples.shorten)
           (PList [PInt 7; PDict []; PNone; PList [PDict [("page_content", PStr "b")]]])).
  - reflexivity.
  - discriminate.
Defined.

(* ================================================================== *)
(** * The search tool: what the caller gets back *)
(* ================================================================== *)

Section SearchOutcome.

Import RagSearch.

Variable jwt_encode : jwt_payload -> string -> string -> result string.
Variable format_float_3f : pyfloat -> string.
Variable format_int_3f : Z -> result string.
Variable py_str : pyobj -> string.
Variable textwrap_shorten : string -> Z -> string -> string.

Local Abbreviation arun_with outcome :=
  (_arun jwt_encode (Samples.upstream outcome) format_float_3f format_int_3f py_str
     textwrap_shorten).

(** With a TTL of 60 seconds at the epoch the claim set is built, so
    the headers are, whatever the encoder does. *)
Lemma sample_tool_headers :
  exists headers, _prepare_headers jwt_encode Samples.tool 0 = Ok headers.
Proof.
  unfold _prepare_headers, _generate_jwt.
  change (_jwt_secret Samples.tool) with (Some "s3cret").
  change (str_truthy "s3cret") with true.
  change (jwt_payload_of Samples.tool 0)
    with (Ok {| sub := "agent_service";
                iat := Datetime 0;
                exp := Datetime 60000000 |}).
  cbn [bind]. destruct (jwt_encode _ _ _) as [token|e]; cbn [bind];
    eexists; reflexivity.
Qed.

(** C1 (the code departs from it).  With the upstream answering 200 and
    a body that parses, [_arun] still raises: on the JSON number 7 a
    [TypeError] (the number is not iterable), and on an entry whose
    document carries a numeric [page_content] an [AttributeError].  A
    request has been made in both runs. *)
Theorem arun_raises_on_parsed_body :
  snd (arun_with (Ok (Samples.json_response (PInt 7)))
         Samples.tool 0 "hello" (Some ["kb"]) None None)
    = Raise TypeError /\
  snd (arun_with (Ok (Samples.json_response
                        (PList [PList [PDict [("page_content", PInt 5)]; PInt 1]])))
         Samples.tool 0 "hello" (Some ["kb"]) None None)
    = Raise AttributeError /\
  List.length (fst (arun_with (Ok (Samples.json_response (PInt 7)))
                      Samples.tool 0 "hello" (Some ["kb"]) None None)) = 1%nat.
Proof.
  destruct sample_tool_headers as [headers Hheaders].
  rewrite !(arun_sent jwt_encode _ format_float_3f format_int_3f py_str textwrap_shorten
              Samples.tool 0 "hello" (Some ["kb"]) None None "kb" [] headers
              eq_refl eq_refl Hheaders).
  repeat split.
Qed.

End SearchOutcome.

(* ================================================================== *)
(** * More on the identifier normalizer *)
(* ================================================================== *)

Section NormalizerMore.

Import Documents.

Lemma clean_empty : clean "" = "".
Proof. reflexivity. Qed.

Lemma normalize_some (settings : Settings) (uuid4 : N) (v : string) :
  _normalize_file_id settings uuid4 (Some v) =
  if str_truthy (clean v) then clean v
  else _normalize_file_id settings uuid4 None.
Proof.
  unfold _normalize_file_id. destruct v as [|c v']; [reflexivity|]. reflexivity.
Qed.

Lemma clean_through_lower_strip (s : string) :
  clean s =
  of_chars (strip_by (is_char "_")
              (collapse_underscores (replace_unsafe (chars (str_lower (str_strip s)))))).
Proof.
  unfold clean, clean_chars, str_lower, str_strip. now rewrite !chars_of_chars.
Qed.

(** X1.  Two inputs that differ only in letter case or in surrounding
    whitespace are normalized to the same identifier. *)
Theorem normalize_file_id_case_insensitive
    (settings : Settings) (uuid4 : N) (v1 v2 : string) :
  str_lower (str_strip v1) = str_lower (str_strip v2) ->
  _normalize_file_id settings uuid4 (Some v1) = _normalize_file_id settings uuid4 (Some v2).
Proof.
  intros H. rewrite !normalize_some, !clean_through_lower_strip, H. reflexivity.
Qed.

Lemma normalize_file_id_case_insensitive_witness :
  str_lower (str_strip "  My-Doc.PDF ") = str_lower (str_strip "my-doc.pdf") /\
  _normalize_file_id Samples.settings 7 (Some "  My-Doc.PDF ")
    = _normalize_file_id Samples.settings 7 (Some "my-doc.pdf").
Proof.
  split; [reflexivity|].
  apply (normalize_file_id_case_insensitive Samples.settings 7 "  My-Doc.PDF " "my-doc.pdf").
  reflexivity.
Defined.

(** X2.  The strings the cleaning steps leave unchanged are exactly
    those made of [a-z0-9_-] with no two consecutive underscores and no
    underscore at either end; such a string, when not empty, is returned
    as it is by the normalizer, whatever the configuration. *)
Theorem normalize_file_id_fixed_points (s : string) :
  (clean s = s <-> canonical_chars (chars s) = true) /\
  (s <> "" -> canonical_chars (chars s) = true ->
   forall settings uuid4, _normalize_file_id settings uuid4 (Some s) = s).
Proof.
  assert (Hfix : canonical_chars (chars s) = true -> clean s = s).
  { intros H. unfold clean. rewrite (clean_chars_fixed _ H). apply of_chars_chars. }
  split; [split; [|exact Hfix]|].
  - intros H. rewrite <- H. unfold clean. rewrite chars_of_chars. apply clean_chars_shape.
  - intros Hn Hc settings uuid4. apply normalize_of_canonical. split; auto.
Qed.

Lemma normalize_file_id_fixed_points_witness :
  "kb-2024_v2" <> "" /\ canonical_chars (chars "kb-2024_v2") = true /\
  _normalize_file_id (Samples.with_defaults ["My Doc"]) 7 (Some "kb-2024_v2") = "kb-2024_v2".
Proof.
  split; [discriminate|]. split; [reflexivity|].
  apply (proj2 (normalize_file_id_fixed_points "kb-2024_v2"));
    [discriminate | reflexivity].
Defined.

Lemma length_of_chars (l : list ascii) : String.length (of_chars l) = List.length l.
Proof. induction l as [|c t IH]; simpl; [reflexivity | now rewrite IH]. Qed.

Lemma normalize_fallback_shape (settings : Settings) (uuid4 : N) (value : option string) :
  cleans_to_nonempty value = false ->
  match RAG_DEFAULT_FILE_IDS settings with
  | first :: _ => _normalize_file_id settings uuid4 value = first
  | [] =>
      exists h, _normalize_file_id settings uuid4 value = "doc_" ++ h /\
                String.length h = 8%nat /\ forallb is_hex (chars h) = true
  end.
Proof.
  intros H.
  destruct (normalize_cases settings uuid4 value) as [[Ht _] | [_ ->]]; [congruence|].
  destruct (RAG_DEFAULT_FILE_IDS settings); [|reflexivity].
  exists (of_chars (firstn 8 (uuid_hex uuid4))). split; [reflexivity|].
  rewrite length_of_chars, chars_of_chars. split.
  - unfold uuid_hex. rewrite length_firstn, hex_fixed_length. reflexivity.
  - apply forallb_firstn, hex_fixed_is_hex.
Qed.

(** X3.  When the input is absent or cleans to the empty string, the
    normalizer returns the first configured default identifier as it is
    written; with no default configured it returns ["doc_"] followed by
    exactly eight lowercase hexadecimal digits. *)
Theorem normalize_file_id_fallback
    (settings : Settings) (uuid4 : N) (value : option string) :
  cleans_to_nonempty value = false ->
  match RAG_DEFAULT_FILE_IDS settings with
  | first :: _ => _normalize_file_id settings uuid4 value = first
  | [] =>
      exists h, _normalize_file_id settings uuid4 value = "doc_" ++ h /\
                String.length h = 8%nat /\ forallb is_hex (chars h) = true
  end.
Proof. apply normalize_fallback_shape. Qed.

Lemma normalize_file_id_fallback_witness :
  cleans_to_nonempty (Some " ?!_ ") = false /\
  _normalize_file_id Samples.settings 0xdeadbeef00000000000000000000 (Some " ?!_ ")
    = "doc_0000dead" /\
  _normalize_file_id (Samples.with_defaults ["kb"; "other"]) 7 None = "kb".
Proof.
  split; [reflexivity|]. split; [reflexivity|].
  apply (normalize_file_id_fallback (Samples.with_defaults ["kb"; "other"]) 7 None).
  reflexivity.
Defined.

End NormalizerMore.

(* ================================================================== *)
(** * More on the proxy endpoints *)
(* ================================================================== *)

Section ProxyMore.

Import Documents.

Variable jwt_encode : jwt_payload -> string -> string -> result string.
Variable http_send : request -> result response.

Local Abbreviation endpoint_of_op := (endpoint jwt_encode http_send).
Local Abbreviation request_of_op := (endpoint_request jwt_encode).

Lemma endpoint_outcome (settings : Settings) (now : Z) (uuid4 : N) (op : operation) :
  endpoint_of_op settings now uuid4 op =
  (req <- request_of_op settings now uuid4 op ;;
   r <- http_send req ;;
   body <- rag_response r ;;
   Ok (wrapped settings uuid4 op body)).
Proof.
  destruct op; unfold endpoint, upload_document, list_document_ids, preview_document,
    _rag_request, endpoint_request; cbn [wrapped];
    destruct (_rag_headers jwt_encode settings now) as [headers|e]; cbn [bind];
    try reflexivity;
    destruct (http_send _) as [r|e]; cbn [bind]; try reflexivity;
    destruct (rag_response r); reflexivity.
Qed.

(** X4.  An endpoint returns normally exactly when its request was
    built and the RAG client did not fail on it; the upstream body (the
    parsed JSON when the response announces JSON, its text otherwise)
    is then passed through unchanged, and the [file_id] reported by
    upload and preview is the normalized identifier that was sent
    upstream. *)
Theorem proxy_success_passthrough (settings : Settings) (now : Z) (uuid4 : N)
    (op : operation) :
  ((exists out, endpoint_of_op settings now uuid4 op = Ok out) <->
   (exists req, request_of_op settings now uuid4 op = Ok req /\
                failure_of (http_send req) = None)) /\
  (forall e, request_of_op settings now uuid4 op = Raise e ->
     endpoint_of_op settings now uuid4 op = Raise e) /\
  (forall req,
     request_of_op settings now uuid4 op = Ok req ->
     (forall r body,
        http_send req = Ok r -> status_code r < 400 -> passed_body r = Ok body ->
        endpoint_of_op settings now uuid4 op = Ok (wrapped settings uuid4 op body)) /\
     (forall file file_id entity_id data,
        op = Upload file file_id entity_id ->
        req_data req = Some data ->
        assoc_get data "file_id" = Some (_normalize_file_id settings uuid4 file_id)) /\
     (forall file_id,
        op = Preview file_id ->
        req_url req =
          str_rstrip_char "/" (RAG_BASE_URL settings) ++ "/documents/"
            ++ _normalize_file_id settings uuid4 (Some file_id) ++ "/context")).
Proof.
  rewrite endpoint_outcome.
  split; [|split].
  - destruct (request_of_op settings now uuid4 op) as [req|e]; cbn [bind].
    + unfold failure_of, rag_response.
      destruct (http_send req) as [r|e] eqn:Hsend; cbn [bind].
      * destruct (400 <=? status_code r) eqn:Hstatus; cbn [bind].
        -- split; [intros [out H]; discriminate|].
           intros (req' & [= <-] & H). rewrite Hsend, Hstatus in H. discriminate.
        -- destruct (announces_json r) eqn:Hjson; [destruct (json_body r) eqn:Hbody|];
             cbn [bind]; split;
             try (intros [out H]; discriminate);
             try (intros _; eexists; reflexivity);
             try (intros _; exists req; split; [reflexivity|];
                  now rewrite Hsend, Hstatus, Hjson, ?Hbody).
           intros (req' & [= <-] & H). rewrite Hsend, Hstatus, Hjson, Hbody in H.
           discriminate.
      * split; [intros [out H]; discriminate|].
        intros (req' & [= <-] & H). rewrite Hsend in H. discriminate.
    + split; [intros [out H]; discriminate | intros (req & H & _); discriminate].
  - intros e ->. reflexivity.
  - intros req Hreq. rewrite Hreq. cbn [bind].
    apply (endpoint_request_headers jwt_encode) in Hreq as (headers & _ & ->).
    split; [|split].
    + intros r body -> Hs Hb. cbn [bind]. unfold rag_response, passed_body in *.
      destruct (Z.leb_spec 400 (status_code r)); [lia|].
      destruct (announces_json r); rewrite Hb; reflexivity.
    + intros file file_id entity_id data ->. cbn. intros [= <-]. reflexivity.
    + intros file_id ->. reflexivity.
Qed.

End ProxyMore.

Lemma proxy_success_passthrough_witness :
  Documents.endpoint_request Samples.encode Samples.settings 0 7 Documents.ListIds
    = Ok Samples.ids_request /\
  Samples.upstream (Ok (Samples.json_response (PList [PStr "kb"; PStr "faq"])))
    Samples.ids_request
    = Ok (Samples.json_response (PList [PStr "kb"; PStr "faq"])) /\
  status_code (Samples.json_response (PList [PStr "kb"; PStr "faq"])) < 400 /\
  Documents.list_document_ids Samples.encode
    (Samples.upstream (Ok (Samples.json_response (PList [PStr "kb"; PStr "faq"]))))
    Samples.settings 0
    = Ok (PDict [("ids", PList [PStr "kb"; PStr "faq"])]).
Proof.
  split; [reflexivity|]. split; [reflexivity|]. split; [reflexivity|].
  apply (proj1 (proj2 (proj2 (proxy_success_passthrough Samples.encode
                                (Samples.upstream
                                   (Ok (Samples.json_response
                                          (PList [PStr "kb"; PStr "faq"]))))
                                Samples.settings 0 7 Documents.ListIds))
                  Samples.ids_request eq_refl)
           (Samples.json_response (PList [PStr "kb"; PStr "faq"]))
           (PList [PStr "kb"; PStr "faq"]));
    reflexivity.
Defined.

Section PathSafety.

Import Documents.

Variable jwt_encode : jwt_payload -> string -> string -> result string.

Lemma id_char_keeps_path (c : ascii) : is_id_char c = true -> breaks_path c = false.
Proof. destruct c as [[] [] [] [] [] [] [] []]; vm_compute; congruence. Qed.

Lemma forallb_impl (p q : ascii -> bool) (l : list ascii) :
  (forall c, p c = true -> q c = true) -> forallb p l = true -> forallb q l = true.
Proof.
  intros Hpq. induction l as [|c t IH]; [reflexivity|]. simpl. intros H.
  apply andb_true_iff in H as [Hc Ht]. now rewrite (Hpq c Hc), IH.
Qed.

(** X5.  Whatever the caller puts in the path parameter of the preview
    endpoint, the identifier placed in the upstream path
    [/documents/<id>/context] is not empty and holds no slash, dot,
    question mark, hash, percent sign or whitespace, provided the input
    cleans to a non-empty string (or the configured default is
    canonical). *)
Theorem preview_path_segment_safe (settings : Settings) (now : Z) (uuid4 : N)
    (file_id : string) (req : request) :
  cleans_to_nonempty (Some file_id) = true \/ defaults_canonical settings ->
  endpoint_request jwt_encode settings now uuid4 (Preview file_id) = Ok req ->
  exists id,
    req_method req = "GET" /\
    req_url req =
      str_rstrip_char "/" (RAG_BASE_URL settings) ++ "/documents/" ++ id ++ "/context" /\
    id <> "" /\
    forallb (fun c => negb (breaks_path c)) (chars id) = true.
Proof.
  intros H Hreq. apply endpoint_request_headers in Hreq as (headers & _ & ->).
  exists (_normalize_file_id settings uuid4 (Some file_id)).
  pose proof (normalize_canonical settings uuid4 (Some file_id) H) as Hc.
  split; [reflexivity|]. split; [reflexivity|]. split; [apply Hc|].
  pose proof (canonical_matches _ Hc) as Hm. unfold matches_id_pattern in Hm.
  apply andb_true_iff in Hm as [_ Hm]. revert Hm. apply forallb_impl.
  intros c Hcid. now rewrite (id_char_keeps_path c Hcid).
Qed.

End PathSafety.

Lemma preview_path_segment_safe_witness :
  (Documents.cleans_to_nonempty (Some "../etc/passwd?x=1") = true \/
   Documents.defaults_canonical Samples.settings) /\
  Documents.endpoint_request Samples.encode Samples.settings 0 7
    (Documents.Preview "../etc/passwd?x=1") = Ok Samples.preview_request /\
  req_url Samples.preview_request = "http://rag:8000/documents/etc_passwd_x_1/context" /\
  exists id,
    req_method Samples.preview_request = "GET" /\
    req_url Samples.preview_request =
      str_rstrip_char "/" (RAG_BASE_URL Samples.settings) ++ "/documents/" ++ id
        ++ "/context" /\
    id <> "" /\
    forallb (fun c => negb (Documents.breaks_path c)) (chars id) = true.
Proof.
  split; [left; reflexivity|]. split; [reflexivity|]. split; [reflexivity|].
  exact (preview_path_segment_safe Samples.encode Samples.settings 0 7
           "../etc/passwd?x=1" Samples.preview_request (or_introl eq_refl) eq_refl).
Defined.

Section UiDefault.

Import Documents.

(** X6.  With default identifiers configured, the identifier the UI page
    is rendered with is the one an upload falls back to when its
    [file_id] is absent or cleans to nothing; with none configured the
    page gets the empty string, while the upload gets a generated,
    non-empty identifier. *)
Theorem ui_default_is_upload_fallback (settings : Settings) (uuid4 : N)
    (value : option string) :
  cleans_to_nonempty value = false ->
  (RAG_DEFAULT_FILE_IDS settings <> [] ->
   _normalize_file_id settings uuid4 value = Router.default_file_id settings) /\
  (RAG_DEFAULT_FILE_IDS settings = [] ->
   Router.default_file_id settings = "" /\ _normalize_file_id settings uuid4 value <> "").
Proof.
  intros H. pose proof (normalize_fallback_shape settings uuid4 value H) as Hf.
  unfold Router.default_file_id. destruct (RAG_DEFAULT_FILE_IDS settings) as [|d ds].
  - split; [congruence|]. intros _. split; [reflexivity|].
    destruct Hf as (h & -> & _). discriminate.
  - split; [now intros _ | discriminate].
Qed.

End UiDefault.

Lemma ui_default_is_upload_fallback_witness :
  Documents.cleans_to_nonempty None = false /\
  Documents._normalize_file_id (Samples.with_defaults ["kb"; "faq"]) 7 None
    = Router.default_file_id (Samples.with_defaults ["kb"; "faq"]).
Proof.
  split; [reflexivity|].
  apply (proj1 (ui_default_is_upload_fallback (Samples.with_defaults ["kb"; "faq"]) 7 None
                  eq_refl)).
  discriminate.
Defined.

(* ================================================================== *)
(** * More on the search tool *)
(* ================================================================== *)

Section ToolSetup.

Import RagSearch.

Lemma rstrip_by_split (p : ascii -> bool) (l : list ascii) :
  exists tail, l = (rstrip_by p l ++ tail)%list /\ forallb p tail = true.
Proof.
  induction l as [|c t (tail & Ht & Hp)]; [exists []; now split|].
  cbn [rstrip_by]. destruct (rstrip_by p t) as [|c' t'] eqn:E.
  - simpl in Ht. subst tail. destruct (p c) eqn:Ec.
    + exists (c :: t). split; [reflexivity|]. simpl. now rewrite Ec, Hp.
    + exists t. now split.
  - exists tail. split; [|exact Hp]. simpl. now rewrite Ht.
Qed.

Lemma ensure_leading_slash_cases (value : string) :
  _ensure_leading_slash value = "" \/
  str_startswith_char "/" (_ensure_leading_slash value) = true.
Proof.
  unfold _ensure_leading_slash. destruct value as [|c v]; [now left | right]. simpl.
  destruct (Ascii.eqb c "/") eqn:E; simpl; now rewrite ?E.
Qed.

(** X7.  [_ensure_leading_slash] keeps the empty string, leaves a value
    that starts with a slash as it is, puts one slash before any other
    value, and doing it twice changes nothing. *)
Theorem ensure_leading_slash_idempotent (value : string) :
  (value = "" <-> _ensure_leading_slash value = "") /\
  (value <> "" -> str_startswith_char "/" (_ensure_leading_slash value) = true) /\
  (_ensure_leading_slash value = value \/ _ensure_leading_slash value = "/" ++ value) /\
  _ensure_leading_slash (_ensure_leading_slash value) = _ensure_leading_slash value.
Proof.
  unfold _ensure_leading_slash. destruct value as [|c v]; simpl.
  - repeat split; auto.
  - destruct (Ascii.eqb c "/") eqn:E; simpl; rewrite ?E;
      repeat split; auto; discriminate.
Qed.

(** X8.  The tool [__init__] builds has a base URL that is the configured
    one without its trailing slashes, endpoints that are empty or begin
    with a slash, default identifiers none of which is empty, a default
    [top_k] of at least 1, a token lifetime of at least 10 seconds and a
    non-empty subject. *)
Theorem init_invariants (settings : Settings) :
  let self := init settings in
  (exists tail, chars (RAG_BASE_URL settings) = (chars (_base_url self) ++ tail)%list /\
                forallb (is_char "/") tail = true) /\
  Documents.ends_with (is_char "/") (chars (_base_url self)) = false /\
  (_query_endpoint self = "" \/ str_startswith_char "/" (_query_endpoint self) = true) /\
  (_query_multiple_endpoint self = "" \/
   str_startswith_char "/" (_query_multiple_endpoint self) = true) /\
  Forall (fun fid => fid <> "") (_default_file_ids self) /\
  1 <= _default_top_k self /\ 10 <= _jwt_ttl_seconds self /\
  _service_subject self <> "".
Proof.
  pose proof ensure_leading_slash_cases as Hslash.
  cbn [init _base_url _query_endpoint _query_multiple_endpoint _default_file_ids
       _default_top_k _jwt_ttl_seconds _service_subject].
  unfold str_rstrip_char. rewrite chars_of_chars.
  split; [apply rstrip_by_split|]. split; [apply ends_with_rstrip_by|].
  split; [apply Hslash|]. split; [apply Hslash|].
  split; [|split; [lia | split; [lia|]]].
  - apply Forall_forall. intros fid Hin. apply filter_In in Hin as [_ Ht].
    now apply str_truthy_nonempty.
  - unfold or_default. destruct (RAG_SERVICE_SUBJECT settings) as [[|c s]|]; discriminate.
Qed.

End ToolSetup.

Section ToolRequests.

Import RagSearch.

Variable jwt_encode : jwt_payload -> string -> string -> result string.
Variable http_send : request -> result response.
Variable format_float_3f : pyfloat -> string.
Variable format_int_3f : Z -> result string.
Variable py_str : pyobj -> string.
Variable textwrap_shorten : string -> Z -> string -> string.

Local Abbreviation arun :=
  (_arun jwt_encode http_send format_float_3f format_int_3f py_str textwrap_shorten).
Local Abbreviation fmt_results :=
  (_format_results format_float_3f format_int_3f py_str textwrap_shorten).

(** X9.  One call of the tool hands at most one request to the HTTP
    client (there is no retry).  It hands none exactly when the query
    is blank, no identifier is left, or building the request headers
    raises.  In the first two cases the result is one of the two fixed
    messages, never an exception; in the third the exception leaves
    the tool. *)
Theorem arun_at_most_one_request (self : RAGSearchTool) (now : Z) (query : string)
    (file_ids : option (list string)) (top_k : option Z) (entity_id : option string) :
  let run := arun self now query file_ids top_k entity_id in
  (List.length (fst run) <= 1)%nat /\
  (fst run = [] <->
   is_blank query = true \/ resolve_file_ids self file_ids = [] \/
   exists e, _prepare_headers jwt_encode self now = Raise e) /\
  (is_blank query = true \/ resolve_file_ids self file_ids = [] ->
   snd run = Ok QUERY_REQUIRED \/ snd run = Ok NO_FILE_IDS) /\
  (is_blank query = false -> resolve_file_ids self file_ids <> [] ->
   forall e, _prepare_headers jwt_encode self now = Raise e -> snd run = Raise e).
Proof.
  intros run. unfold run.
  destruct (arun_cases jwt_encode http_send format_float_3f format_int_3f py_str
              textwrap_shorten self now query file_ids top_k entity_id)
    as [[Hb ->] | [(Hb & Hids & ->)
                  | (Hb & fid & rest & Hids
                     & [(e & He & ->) | (headers & result & Hh & ->)])]];
    cbn [fst snd List.length].
  - split; [lia|]. split; [split; auto|]. split; [auto | congruence].
  - split; [lia|]. split; [split; auto|]. split; [auto | congruence].
  - split; [lia|]. split; [split; eauto|]. split.
    + intros [H | H]; congruence.
    + intros _ _ e' He'. congruence.
  - split; [lia|]. split; [split|split].
    + discriminate.
    + intros [H | [H | [e H]]]; congruence.
    + intros [H | H]; congruence.
    + intros _ _ e He. congruence.
Qed.

(** X10.  Every request the tool makes carries a [k] of at least 1, a
    query that is not empty and has no whitespace at either end, and
    identifiers none of which is the empty string: one under
    [file_id], or at least two under [file_ids]. *)
Theorem arun_request_well_formed (self : RAGSearchTool) (now : Z) (query : string)
    (file_ids : option (list string)) (top_k : option Z) (entity_id : option string)
    (req : request) :
  In req (fst (arun self now query file_ids top_k entity_id)) ->
  exists payload k q,
    req_json req = Some payload /\
    dict_get payload "k" = PInt k /\ 1 <= k /\
    dict_get payload "query" = PStr q /\ q <> "" /\
    Documents.starts_with isspace (chars q) = false /\
    Documents.ends_with isspace (chars q) = false /\
    ((exists fid, dict_get payload "file_id" = PStr fid /\ fid <> "") \/
     (exists ids, dict_get payload "file_ids" = PList (map PStr ids) /\
                  (2 <= List.length ids)%nat /\ Forall (fun fid => fid <> "") ids)).
Proof.
  destruct (arun_cases jwt_encode http_send format_float_3f format_int_3f py_str
              textwrap_shorten self now query file_ids top_k entity_id)
    as [[_ ->] | [(_ & _ & ->)
                 | (Hb & fid & rest & Hids
                    & [(e & _ & ->) | (headers & result & _ & ->)])]];
    try (simpl; tauto).
  intros [<- | []].
  assert (Hall : Forall (fun fid => fid <> "") (fid :: rest)).
  { rewrite <- Hids. apply Forall_forall. intros x Hin.
    apply filter_In in Hin as [_ Ht]. now apply str_truthy_nonempty. }
  exists (payload_of self (str_strip query) fid rest (resolve_top_k self top_k) entity_id),
    (resolve_top_k self top_k), (str_strip query).
  split; [reflexivity|]. split; [reflexivity|]. split.
  { unfold resolve_top_k.
    destruct (Z.ltb_spec (match top_k with
                          | Some k => if k =? 0 then _default_top_k self else k
                          | None => _default_top_k self
                          end) 1); lia. }
  split; [reflexivity|]. split.
  { intros E. unfold is_blank in Hb. now rewrite E in Hb. }
  unfold str_strip at 1 2. rewrite chars_of_chars.
  destruct (strip_by_ends isspace (chars query)) as [Hs He].
  split; [exact Hs|]. split; [exact He|].
  unfold payload_of. destruct rest as [|fid' rest'].
  - left. exists fid. split; [reflexivity|]. now inversion Hall.
  - right. exists (fid :: fid' :: rest'). split; [reflexivity|].
    split; [simpl; lia | exact Hall].
Qed.

(** X11.  The headers of every request the tool makes: always
    [Content-Type: application/json], followed by
    [Authorization: Bearer <token>] exactly when the issuer produced a
    non-empty token, and nothing else.  Without a signing secret, or
    when signing raises, a non-blank query with an identifier still has
    its request made, under the [Content-Type] header alone. *)
Theorem arun_request_headers (self : RAGSearchTool) (now : Z) (query : string)
    (file_ids : option (list string)) (top_k : option Z) (entity_id : option string) :
  let run := arun self now query file_ids top_k entity_id in
  (forall req,
     In req (fst run) ->
     exists issued,
       _generate_jwt jwt_encode self now = Ok issued /\
       req_headers req =
         ("Content-Type", "application/json") ::
         match issued with
         | Some token =>
             if str_truthy token then [("Authorization", "Bearer " ++ token)] else []
         | None => []
         end) /\
  (is_blank query = false -> resolve_file_ids self file_ids <> [] ->
   opt_truthy (_jwt_secret self) = false ->
   exists req,
     fst run = [req] /\ req_headers req = [("Content-Type", "application/json")]) /\
  (is_blank query = false -> resolve_file_ids self file_ids <> [] ->
   forall secret payload e,
     _jwt_secret self = Some secret ->
     jwt_payload_of self now = Ok payload ->
     jwt_encode payload secret (_jwt_algorithm self) = Raise e ->
     exists req,
       fst run = [req] /\ req_headers req = [("Content-Type", "application/json")]).
Proof.
  intros run.
  assert (Hunsigned : is_blank query = false -> resolve_file_ids self file_ids <> [] ->
                      _generate_jwt jwt_encode self now = Ok None ->
                      exists req,
                        fst run = [req] /\
                        req_headers req = [("Content-Type", "application/json")]).
  { intros Hb Hids Hnone.
    destruct (resolve_file_ids self file_ids) as [|fid rest] eqn:E; [congruence|].
    unfold run.
    rewrite (arun_sent jwt_encode http_send format_float_3f format_int_3f py_str
               textwrap_shorten self now query file_ids top_k entity_id fid rest
               [("Content-Type", "application/json")] Hb E).
    - eexists. split; reflexivity.
    - unfold _prepare_headers. now rewrite Hnone. }
  split; [|split].
  - unfold run.
    destruct (arun_cases jwt_encode http_send format_float_3f format_int_3f py_str
                textwrap_shorten self now query file_ids top_k entity_id)
      as [[_ ->] | [(_ & _ & ->)
                   | (_ & fid & rest & _
                      & [(e & _ & ->) | (headers & result & Hh & ->)])]];
      try (simpl; tauto).
    intros req [<- | []]. cbn [query_request req_headers].
    unfold _prepare_headers in Hh.
    destruct (_generate_jwt jwt_encode self now) as [issued|e]; cbn [bind] in Hh;
      [|discriminate].
    exists issued. split; [reflexivity|].
    destruct issued as [token|]; injection Hh as <-; [|reflexivity].
    now destruct (str_truthy token).
  - intros Hb Hids Hsecret. apply Hunsigned; [assumption | assumption |].
    unfold _generate_jwt. destruct (_jwt_secret self) as [s|]; [|reflexivity].
    cbn [opt_truthy] in Hsecret. now rewrite Hsecret.
  - intros Hb Hids secret payload e Hs Hp He. apply Hunsigned; [assumption | assumption |].
    unfold _generate_jwt. rewrite Hs, Hp. cbn [bind]. rewrite He.
    now destruct (str_truthy secret).
Qed.

(** X12.  What the tool makes of the upstream's answer to its request:
    a status of 400 or more gives the message naming that status,
    whatever the body; a 2xx answer whose body parses gives exactly what
    the formatter makes of the parsed value; a 2xx answer whose body
    fails to parse with a [ValueError] gives the "unexpected response
    format" message. *)
Theorem arun_upstream_answer (self : RAGSearchTool) (now : Z) (query : string)
    (file_ids : option (list string)) (top_k : option Z) (entity_id : option string)
    (req : request) (r : response) :
  fst (arun self now query file_ids top_k entity_id) = [req] ->
  http_send req = Ok r ->
  let result := snd (arun self now query file_ids top_k entity_id) in
  (400 <= status_code r ->
   result = Ok ("RAG search failed with status " ++ str_of_Z (status_code r) ++ ". " ++
                "Verify the file identifiers and query parameters.")) /\
  (200 <= status_code r <= 299 -> forall data,
   json_body r = Ok data -> result = fmt_results data) /\
  (200 <= status_code r <= 299 -> forall msg,
   json_body r = Raise (ValueError msg) ->
   result = Ok "RAG search returned an unexpected response format.").
Proof.
  destruct (arun_cases jwt_encode http_send format_float_3f format_int_3f py_str
              textwrap_shorten self now query file_ids top_k entity_id)
    as [[_ E] | [(_ & _ & E)
                | (Hb & fid & rest & Hids
                   & [(e & _ & E) | (headers & result & Hh & _)])]];
    [rewrite E; discriminate | rewrite E; discriminate | rewrite E; discriminate |].
  rewrite (arun_sent jwt_encode http_send format_float_3f format_int_3f py_str
             textwrap_shorten self now query file_ids top_k entity_id fid rest headers
             Hb Hids Hh).
  cbn [fst snd]. intros [= <-] Hr. unfold post_query, raise_for_status.
  rewrite Hr. simpl bind. repeat split.
  - intros Hs. destruct (Z.leb_spec 200 (status_code r)); [|lia].
    destruct (Z.leb_spec (status_code r) 299); [lia|]. reflexivity.
  - intros [H1 H2] data Hd.
    destruct (Z.leb_spec 200 (status_code r)); [|lia].
    destruct (Z.leb_spec (status_code r) 299); [|lia]. simpl. now rewrite Hd.
  - intros [H1 H2] msg Hd.
    destruct (Z.leb_spec 200 (status_code r)); [|lia].
    destruct (Z.leb_spec (status_code r) 299); [|lia]. simpl. now rewrite Hd.
Qed.

(** X13.  When the [try] around the request raises (the post,
    [raise_for_status] or [response.json()]), the four handlers decide
    the result: an HTTP status error, a timeout, any other HTTP error
    and a [ValueError] each come back as a message of their own, the
    four being pairwise distinct; any other exception leaves the tool
    as it was raised. *)
Theorem arun_failure_messages (self : RAGSearchTool) (now : Z) (query : string)
    (file_ids : option (list string)) (top_k : option Z) (entity_id : option string)
    (req : request) (e : exn) :
  fst (arun self now query file_ids top_k entity_id) = [req] ->
  post_query http_send req = Raise e ->
  let result := snd (arun self now query file_ids top_k entity_id) in
  let status_message status :=
    "RAG search failed with status " ++ str_of_Z status ++ ". " ++
    "Verify the file identifiers and query parameters." in
  let timeout_message := "RAG search timed out. Please try again with a simpler query." in
  let network_message msg := "RAG search failed due to a network error: " ++ msg in
  let format_message := "RAG search returned an unexpected response format." in
  (forall status body, e = HTTPStatusError status body ->
     result = Ok (status_message status)) /\
  (forall msg, e = TimeoutException msg -> result = Ok timeout_message) /\
  (forall msg, e = HTTPErrorOther msg -> result = Ok (network_message msg)) /\
  (forall msg, e = ValueError msg -> result = Ok format_message) /\
  (is_caught e = false -> result = Raise e) /\
  (forall status msg,
     status_message status <> timeout_message /\
     status_message status <> network_message msg /\
     status_message status <> format_message /\
     timeout_message <> network_message msg /\
     timeout_message <> format_message /\
     network_message msg <> format_message).
Proof.
  destruct (arun_cases jwt_encode http_send format_float_3f format_int_3f py_str
              textwrap_shorten self now query file_ids top_k entity_id)
    as [[_ E] | [(_ & _ & E)
                | (Hb & fid & rest & Hids
                   & [(e' & _ & E) | (headers & result' & Hh & _)])]];
    [rewrite E; discriminate | rewrite E; discriminate | rewrite E; discriminate |].
  rewrite (arun_sent jwt_encode http_send format_float_3f format_int_3f py_str
             textwrap_shorten self now query file_ids top_k entity_id fid rest headers
             Hb Hids Hh).
  cbn [fst snd]. intros [= <-] ->. cbv zeta.
  split; [now intros status body ->|]. split; [now intros msg ->|].
  split; [now intros msg ->|]. split; [now intros msg ->|].
  split; [destruct e; try discriminate; reflexivity|].
  intros status msg. repeat split; discriminate.
Qed.

End ToolRequests.

Lemma arun_request_well_formed_witness :
  In Samples.multi_request
     (fst (Samples.run_tool Samples.timeout Samples.tool 0 " hello " (Some ["a"; ""; "b"])
             (Some 3) (Some "acme"))) /\
  exists payload k q,
    req_json Samples.multi_request = Some payload /\
    dict_get payload "k" = PInt k /\ 1 <= k /\
    dict_get payload "query" = PStr q /\ q <> "".
Proof.
  split; [left; reflexivity|].
  destruct (arun_request_well_formed Samples.encode (Samples.upstream Samples.timeout)
              Samples.float_3f Samples.int_3f Samples.str_other Samples.shorten
              Samples.tool 0 " hello " (Some ["a"; ""; "b"]) (Some 3) (Some "acme")
              Samples.multi_request (or_introl eq_refl))
    as (payload & k & q & H1 & H2 & H3 & H4 & H5 & _).
  exists payload, k, q. repeat split; assumption.
Defined.

Lemma arun_request_headers_witness :
  In Samples.single_request
     (fst (Samples.run_tool Samples.timeout Samples.tool 0 "hello" (Some ["kb"]) None None)) /\
  (exists issued,
     RagSearch._generate_jwt Samples.encode Samples.tool 0 = Ok issued /\
     req_headers Samples.single_request =
       ("Content-Type", "application/json") ::
       match issued with
       | Some token =>
           if str_truthy token then [("Authorization", "Bearer " ++ token)] else []
       | None => []
       end) /\
  exists req,
    fst (RagSearch._arun Samples.failing_encode (Samples.upstream Samples.timeout)
           Samples.float_3f Samples.int_3f Samples.str_other Samples.shorten
           Samples.tool 0 "hello" (Some ["kb"]) None None) = [req] /\
    req_headers req = [("Content-Type", "application/json")].
Proof.
  split; [left; reflexivity|].
  split.
  - exact (proj1 (arun_request_headers Samples.encode (Samples.upstream Samples.timeout)
                    Samples.float_3f Samples.int_3f Samples.str_other Samples.shorten
                    Samples.tool 0 "hello" (Some ["kb"]) None None)
             Samples.single_request (or_introl eq_refl)).
  - exact (proj2 (proj2 (arun_request_headers Samples.failing_encode
                           (Samples.upstream Samples.timeout)
                           Samples.float_3f Samples.int_3f Samples.str_other
                           Samples.shorten
                           Samples.tool 0 "hello" (Some ["kb"]) None None))
             eq_refl ltac:(discriminate) "s3cret"
             {| sub := "agent_service"; iat := Datetime 0; exp := Datetime 60000000 |}
             (OtherError "JWSError") eq_refl eq_refl eq_refl).
Defined.

Lemma arun_upstream_answer_witness :
  fst (Samples.run_tool (Ok (Samples.error_response 503 "Service Unavailable" "busy"))
         Samples.tool 0 "hello" (Some ["kb"]) None None) = [Samples.single_request] /\
  400 <= status_code (Samples.error_response 503 "Service Unavailable" "busy") /\
  snd (Samples.run_tool (Ok (Samples.error_response 503 "Service Unavailable" "busy"))
         Samples.tool 0 "hello" (Some ["kb"]) None None)
    = Ok "RAG search failed with status 503. Verify the file identifiers and query parameters.".
Proof.
  split; [reflexivity|]. split; [discriminate|].
  apply (proj1 (arun_upstream_answer Samples.encode
                  (Samples.upstream
                     (Ok (Samples.error_response 503 "Service Unavailable" "busy")))
                  Samples.float_3f Samples.int_3f Samples.str_other Samples.shorten
                  Samples.tool 0 "hello" (Some ["kb"]) None None
                  Samples.single_request
                  (Samples.error_response 503 "Service Unavailable" "busy")
                  eq_refl eq_refl)).
  discriminate.
Defined.

Lemma arun_failure_messages_witness :
  fst (Samples.run_tool Samples.timeout Samples.tool 0 "hello" (Some ["kb"]) None None)
    = [Samples.single_request] /\
  RagSearch.post_query (Samples.upstream Samples.timeout) Samples.single_request
    = Raise (TimeoutException "timed out") /\
  snd (Samples.run_tool Samples.timeout Samples.tool 0 "hello" (Some ["kb"]) None None)
    = Ok "RAG search timed out. Please try again with a simpler query." /\
  snd (Samples.run_tool (Raise (OtherError "CancelledError")) Samples.tool 0 "hello"
         (Some ["kb"]) None None)
    = Raise (OtherError "CancelledError").
Proof.
  split; [reflexivity|]. split; [reflexivity|].
  split.
  - exact (proj1 (proj2 (arun_failure_messages Samples.encode
                           (Samples.upstream Samples.timeout)
                           Samples.float_3f Samples.int_3f Samples.str_other
                           Samples.shorten Samples.tool 0 "hello" (Some ["kb"]) None None
                           Samples.single_request (TimeoutException "timed out")
                           eq_refl eq_refl))
             "timed out" eq_refl).
  - exact (proj1 (proj2 (proj2 (proj2 (proj2
             (arun_failure_messages Samples.encode
                (Samples.upstream (Raise (OtherError "CancelledError")))
                Samples.float_3f Samples.int_3f Samples.str_other
                Samples.shorten Samples.tool 0 "hello" (Some ["kb"]) None None
                Samples.single_request (OtherError "CancelledError")
                eq_refl eq_refl)))))
             eq_refl).
Defined.

Section ProxyHeaders.

Import Documents.

Variable jwt_encode : jwt_payload -> string -> string -> result string.

(** X14.  The headers of the request of every proxy operation: an
    [Authorization: Bearer <token>] header, and no other, when the
    issuer produced a non-empty token; no header at all when it
    produced the empty token or none.  So without a signing secret, and
    when signing raises, the request is built all the same,
    unauthenticated. *)
Theorem proxy_request_headers (settings : Settings) (now : Z) (uuid4 : N)
    (op : operation) :
  let request_of_op := endpoint_request jwt_encode settings now uuid4 op in
  let issuer := _generate_rag_jwt jwt_encode settings now in
  (forall req,
     request_of_op = Ok req ->
     exists issued,
       issuer = Ok issued /\
       req_headers req =
         match issued with
         | Some token =>
             if str_truthy token then [("Authorization", "Bearer " ++ token)] else []
         | None => []
         end) /\
  (forall token,
     issuer = Ok (Some token) -> token <> "" ->
     exists req,
       request_of_op = Ok req /\
       req_headers req = [("Authorization", "Bearer " ++ token)]) /\
  (issuer = Ok (Some "") \/ issuer = Ok None ->
   exists req, request_of_op = Ok req /\ req_headers req = []) /\
  (opt_truthy (RAG_JWT_SECRET settings) = false ->
   exists req, request_of_op = Ok req /\ req_headers req = []) /\
  (forall secret payload e,
     RAG_JWT_SECRET settings = Some secret ->
     rag_jwt_payload settings now = Ok payload ->
     jwt_encode payload secret (RAG_JWT_ALGORITHM settings) = Raise e ->
     exists req, request_of_op = Ok req /\ req_headers req = []).
Proof.
  intros request_of_op issuer.
  assert (Hbuilt : forall issued,
             issuer = Ok issued ->
             exists req,
               request_of_op = Ok req /\
               req_headers req =
                 match issued with
                 | Some token =>
                     if str_truthy token then [("Authorization", "Bearer " ++ token)]
                     else []
                 | None => []
                 end).
  { intros issued Hissued. unfold request_of_op, endpoint_request, _rag_headers.
    fold issuer. rewrite Hissued. cbn [bind].
    destruct issued as [token|]; cbn [bind]; eexists; (split; [reflexivity|]);
      now destruct op. }
  split; [|split; [|split; [|split]]].
  - intros req Hreq. unfold request_of_op, endpoint_request, _rag_headers in Hreq.
    fold issuer in Hreq. destruct issuer as [issued|e]; cbn [bind] in Hreq;
      [|discriminate].
    exists issued. split; [reflexivity|].
    destruct issued as [token|]; cbn [bind] in Hreq; injection Hreq as <-;
      now destruct op.
  - intros token Hissued Hne. destruct (Hbuilt _ Hissued) as (req & Hreq & Hh).
    exists req. split; [exact Hreq|]. rewrite Hh.
    apply str_truthy_nonempty in Hne. now rewrite Hne.
  - intros [Hissued | Hissued]; destruct (Hbuilt _ Hissued) as (req & Hreq & Hh);
      exists req; (split; [exact Hreq | exact Hh]).
  - intros Hsecret. apply (Hbuilt None). unfold issuer, _generate_rag_jwt.
    destruct (RAG_JWT_SECRET settings) as [s|]; [|reflexivity].
    cbn [opt_truthy] in Hsecret. now rewrite Hsecret.
  - intros secret payload e Hs Hp He. apply (Hbuilt None).
    unfold issuer, _generate_rag_jwt. rewrite Hs, Hp. cbn [bind]. rewrite He.
    now destruct (str_truthy secret).
Qed.

End ProxyHeaders.

(* ================================================================== *)
(** * The token issuers: when the expiry cannot be computed *)
(* ================================================================== *)

Section TokenExpiry.

Variable jwt_encode : jwt_payload -> string -> string -> result string.
Variable http_send : request -> result response.
Variable format_float_3f : pyfloat -> string.
Variable format_int_3f : Z -> result string.
Variable py_str : pyobj -> string.
Variable textwrap_shorten : string -> Z -> string -> string.

Lemma expiry_computed (now ttl : Z) :
  (expiry_in_range now ttl /\
   (delta <- timedelta_seconds ttl ;; datetime_add now delta)
     = Ok (now + ttl * micros_per_second)) \/
  (~ expiry_in_range now ttl /\
   (delta <- timedelta_seconds ttl ;; datetime_add now delta) = Raise OverflowError).
Proof.
  unfold expiry_in_range, timedelta_seconds, datetime_add.
  destruct (Z.leb_spec (Z.abs (ttl / 86400)) 999999999) as [Hdays | Hdays]; cbn [bind].
  - cbv zeta.
    destruct (Z.leb_spec datetime_min (now + ttl * micros_per_second)) as [Hmin | Hmin];
      [destruct (Z.leb_spec (now + ttl * micros_per_second) datetime_max) as [Hmax | Hmax]|];
      cbn [andb]; [left | right | right]; (split; [|reflexivity]); lia.
  - right. split; [lia | reflexivity].
Qed.

(** X21.  With a signing secret configured, either issuer raises
    exactly when the expiry cannot be computed: the TTL (floored at 30
    seconds on the UI proxy path, at 10 on the agent tool path) spans
    more than 999999999 days, or the expiry falls outside the years 1
    to 9999.  What it raises is an [OverflowError], and this before any
    request exists: the proxy endpoint raises it, and the tool, past its
    two checks, raises it with no request made. *)
Theorem token_expiry_overflow (settings : Settings) (now : Z) :
  let ui := Documents._generate_rag_jwt jwt_encode settings now in
  let agent := RagSearch._generate_jwt jwt_encode (RagSearch.init settings) now in
  let configured := opt_truthy (RAG_JWT_SECRET settings) in
  (forall e,
     ui = Raise e <->
     configured = true /\ e = OverflowError /\
     ~ expiry_in_range now (Z.max 30 (RAG_JWT_TTL_SECONDS settings))) /\
  (forall e,
     agent = Raise e <->
     configured = true /\ e = OverflowError /\
     ~ expiry_in_range now (Z.max 10 (RAG_JWT_TTL_SECONDS settings))) /\
  (forall e uuid4 op,
     ui = Raise e ->
     Documents.endpoint_request jwt_encode settings now uuid4 op = Raise e /\
     Documents.endpoint jwt_encode http_send settings now uuid4 op = Raise e) /\
  (forall e query file_ids top_k entity_id,
     agent = Raise e ->
     RagSearch.is_blank query = false ->
     RagSearch.resolve_file_ids (RagSearch.init settings) file_ids <> [] ->
     RagSearch._arun jwt_encode http_send format_float_3f format_int_3f py_str
       textwrap_shorten (RagSearch.init settings) now query file_ids top_k entity_id
       = ([], Raise e)).
Proof.
  intros ui agent configured.
  split; [|split; [|split]].
  - intros e. unfold ui, configured, Documents._generate_rag_jwt, Documents.rag_jwt_payload.
    destruct (RAG_JWT_SECRET settings) as [s|]; cbn [opt_truthy];
      [|split; [discriminate | intros [H _]; discriminate]].
    destruct (str_truthy s); [|split; [discriminate | intros [H _]; discriminate]].
    destruct (expiry_computed now (Z.max 30 (RAG_JWT_TTL_SECONDS settings)))
      as [[Hin Hexp] | [Hout Hexp]].
    + destruct (timedelta_seconds _) as [delta|e0]; cbn [bind] in *; [|discriminate].
      rewrite Hexp. cbn [bind].
      destruct (jwt_encode _ _ _);
        (split; [discriminate | intros (_ & _ & H); contradiction]).
    + destruct (timedelta_seconds _) as [delta|e0]; cbn [bind] in *.
      * rewrite Hexp. cbn [bind]. split; [intros [= <-] | intros (_ & -> & _)]; auto.
      * injection Hexp as ->. split; [intros [= <-] | intros (_ & -> & _)]; auto.
  - intros e. unfold agent, configured, RagSearch._generate_jwt, RagSearch.jwt_payload_of.
    cbn [RagSearch._jwt_secret RagSearch._jwt_ttl_seconds RagSearch.init].
    destruct (RAG_JWT_SECRET settings) as [s|]; cbn [opt_truthy];
      [|split; [discriminate | intros [H _]; discriminate]].
    destruct (str_truthy s); [|split; [discriminate | intros [H _]; discriminate]].
    destruct (expiry_computed now (Z.max 10 (RAG_JWT_TTL_SECONDS settings)))
      as [[Hin Hexp] | [Hout Hexp]].
    + destruct (timedelta_seconds _) as [delta|e0]; cbn [bind] in *; [|discriminate].
      rewrite Hexp. cbn [bind].
      destruct (jwt_encode _ _ _);
        (split; [discriminate | intros (_ & _ & H); contradiction]).
    + destruct (timedelta_seconds _) as [delta|e0]; cbn [bind] in *.
      * rewrite Hexp. cbn [bind]. split; [intros [= <-] | intros (_ & -> & _)]; auto.
      * injection Hexp as ->. split; [intros [= <-] | intros (_ & -> & _)]; auto.
  - intros e uuid4 op Hui. unfold ui in Hui.
    assert (Hreq : Documents.endpoint_request jwt_encode settings now uuid4 op = Raise e).
    { unfold Documents.endpoint_request, Documents._rag_headers. now rewrite Hui. }
    split; [exact Hreq|].
    destruct op; unfold Documents.endpoint, Documents.upload_document,
      Documents.list_document_ids, Documents.preview_document, Documents._rag_request,
      Documents._rag_headers; now rewrite Hui.
  - intros e query file_ids top_k entity_id Hagent Hb Hids. unfold agent in Hagent.
    destruct (arun_cases jwt_encode http_send format_float_3f format_int_3f py_str
                textwrap_shorten (RagSearch.init settings) now query file_ids top_k
                entity_id)
      as [[Hb' _] | [(_ & Hids' & _)
                    | (_ & fid & rest & _
                       & [(e' & He' & ->) | (headers & result & Hh & _)])]];
      try congruence;
      unfold RagSearch._prepare_headers in *; rewrite Hagent in *; cbn [bind] in *;
      congruence.
Qed.

End TokenExpiry.

Lemma token_expiry_overflow_witness :
  Documents._generate_rag_jwt Samples.encode Samples.long_lived 1700000000500000
    = Raise OverflowError /\
  Documents.endpoint Samples.encode (Samples.upstream Samples.timeout) Samples.long_lived
    1700000000500000 7 Documents.ListIds = Raise OverflowError /\
  RagSearch._arun Samples.encode (Samples.upstream Samples.timeout) Samples.float_3f
    Samples.int_3f Samples.str_other Samples.shorten (RagSearch.init Samples.long_lived)
    1700000000500000 "hello" None None None = ([], Raise OverflowError).
Proof.
  pose proof (token_expiry_overflow Samples.encode (Samples.upstream Samples.timeout)
                Samples.float_3f Samples.int_3f Samples.str_other Samples.shorten
                Samples.long_lived 1700000000500000) as (_ & _ & Hui & Hagent).
  split; [reflexivity|].
  split; [exact (proj2 (Hui OverflowError 7%N Documents.ListIds eq_refl))|].
  exact (Hagent OverflowError "hello" None None None eq_refl eq_refl ltac:(discriminate)).
Defined.

(* ================================================================== *)
(** * More on the result formatter *)
(* ================================================================== *)

Section WhitespaceCollapse.

Import RagSearch.

Local Abbreviation starts_with := Documents.starts_with.
Local Abbreviation ends_with := Documents.ends_with.
Local Abbreviation no_repeat := Documents.no_repeat.
















End WhitespaceCollapse.

Section FormatterMore.

Import RagSearch.

Variable format_float_3f : pyfloat -> string.
Variable format_int_3f : Z -> result string.
Variable py_str : pyobj -> string.
Variable textwrap_shorten : string -> Z -> string -> string.

Local Abbreviation fmt_entry :=
  (format_entry format_float_3f format_int_3f py_str textwrap_shorten).
Local Abbreviation fmt_loop :=
  (format_loop format_float_3f format_int_3f py_str textwrap_shorten).
Local Abbreviation fmt_results :=
  (_format_results format_float_3f format_int_3f py_str textwrap_shorten).
Local Abbreviation render :=
  (render_document format_float_3f format_int_3f py_str textwrap_shorten).

Lemma all_skipped_fallback (data : pyobj) (items : list pyobj) :
  py_iter data = Ok items -> forallb is_skipped items = true ->
  fmt_results data = Ok NO_CONTEXT.
Proof.
  intros Hi Hs. destruct (truthy data) eqn:Ht.
  - rewrite (format_results_iterable _ _ _ _ data items Ht Hi).
    apply (kept_from_nil 1) in Hs.
    rewrite (format_loop_complete _ _ _ _ items 1 [] []) by (rewrite Hs; constructor).
    reflexivity.
  - unfold _format_results. now rewrite Ht.
Qed.

Lemma strings_are_skipped (l : list string) :
  forallb is_skipped (map PStr l) = true.
Proof. induction l as [|s t IH]; [reflexivity | exact IH]. Qed.

(** X16.  When the parsed response is a JSON object (an error object,
    say) or a JSON string instead of a list, the formatter iterates over
    its keys or characters, skips them all and returns the fallback
    message: it neither raises nor renders a line. *)
Theorem format_results_object_or_string :
  (forall d, fmt_results (PDict d) = Ok NO_CONTEXT) /\
  (forall s, fmt_results (PStr s) = Ok NO_CONTEXT).
Proof.
  split.
  - intros d. apply (all_skipped_fallback _ (map (fun kv => PStr (fst kv)) d));
      [reflexivity|].
    rewrite <- (map_map fst PStr). apply strings_are_skipped.
  - intros s. apply (all_skipped_fallback _ (map (fun c => PStr (String c "")) (chars s)));
      [reflexivity|].
    rewrite <- (map_map (fun c => String c "") PStr). apply strings_are_skipped.
Qed.

(** X17.  The two accepted shapes render alike: the pair
    [[document, score, ...]] (further elements are ignored) and the
    object [{"document": document, "score": score}] give the same line;
    a pair without a second element is rendered as one whose score is
    [None]; and an object without a truthy ["document"] is itself the
    document, its ["score"] the score. *)
Theorem format_entry_shapes (idx : nat) (document : dict) (score : pyobj)
    (more : list pyobj) :
  fmt_entry idx (PList (PDict document :: score :: more)) =
    fmt_entry idx (PDict [("document", PDict document); ("score", score)]) /\
  fmt_entry idx (PList [PDict document]) = fmt_entry idx (PList [PDict document; PNone]) /\
  (truthy (dict_get document "document") = false ->
   fmt_entry idx (PDict document) =
     (line <- render idx document (dict_get document "score") ;; Ok (Some line))).
Proof.
  split; [|split].
  - destruct document as [|kv rest]; reflexivity.
  - reflexivity.
  - intros H. unfold format_entry, entry_parts, py_or. rewrite H. reflexivity.
Qed.

Lemma truthy_is_str (v : pyobj) :
  falsy_or_str v = true -> truthy v = true -> exists s, v = PStr s.
Proof.
  unfold falsy_or_str. intros H Ht. rewrite Ht in H. destruct v; try discriminate. eauto.
Qed.

Lemma truthy_is_dict (v : pyobj) :
  falsy_or_dict v = true -> truthy v = true -> exists d, v = PDict d.
Proof.
  unfold falsy_or_dict. intros H Ht. rewrite Ht in H. destruct v; try discriminate. eauto.
Qed.

Lemma body_is_str (a b : pyobj) :
  falsy_or_str a = true -> falsy_or_str b = true ->
  exists s, py_or (py_or a b) (PStr "") = PStr s.
Proof.
  intros Ha Hb. unfold py_or. destruct (truthy a) eqn:Ta.
  - rewrite Ta. now apply truthy_is_str.
  - destruct (truthy b) eqn:Tb; [now apply truthy_is_str | eauto].
Qed.

Lemma render_plain (idx : nat) (document : dict) (score : pyobj) :
  plain_document document = true ->
  score_renders format_int_3f score ->
  exists line, render idx document score = Ok line.
Proof.
  unfold plain_document. intros H Hscore.
  apply andb_true_iff in H as [H Hm]. apply andb_true_iff in H as [Hp Hc].
  unfold render_document.
  destruct (body_is_str _ _ Hp Hc) as [s ->]. simpl bind.
  assert (Hmd : exists md, py_or (dict_get document "metadata") (PDict []) = PDict md).
  { unfold py_or. destruct (truthy (dict_get document "metadata")) eqn:T;
      [now apply truthy_is_dict | eauto]. }
  destruct Hmd as [md ->]. simpl bind.
  destruct score as [| b | z | f | s' | l | d]; simpl in Hscore; simpl bind;
    try (eexists; reflexivity).
  - destruct Hscore as [t ->]. simpl bind. eexists; reflexivity.
  - destruct Hscore as [t ->]. simpl bind. eexists; reflexivity.
Qed.

Lemma format_loop_total (items : list pyobj) :
  Forall (renderable format_int_3f) items ->
  forall idx acc, exists chunks, fmt_loop idx items acc = Ok chunks.
Proof.
  induction 1 as [|item rest Hitem _ IH]; intros idx acc; [simpl; eauto|].
  cbn [format_loop]. unfold format_entry. unfold renderable in Hitem.
  destruct (fst (entry_parts item)) as [| | | | | |document]; simpl bind; try apply IH.
  destruct Hitem as [Hp Hs]. destruct (render_plain idx document _ Hp Hs) as [line ->].
  simpl bind. apply IH.
Qed.

(** X18.  On a list whose kept entries are plain (body text and
    [content] falsy or strings, [metadata] falsy or an object) and carry
    a score that renders, the formatter does not raise: it returns a
    string. *)
Theorem format_results_total_on_plain (items : list pyobj) :
  Forall (renderable format_int_3f) items ->
  exists out, fmt_results (PList items) = Ok out.
Proof.
  intros H. unfold _format_results. destruct (truthy (PList items)); simpl; [|eauto].
  destruct (format_loop_total items H 1%nat []) as [chunks ->]. simpl bind.
  destruct chunks; eauto.
Qed.

End FormatterMore.

Lemma format_results_total_on_plain_witness :
  Forall (RagSearch.renderable Samples.int_3f)
    [PList [PDict [("page_content", PStr "a  b"); ("metadata", PNone)]; PInt 2];
     PInt 7;
     PDict [("content", PStr "c"); ("page_content", PInt 0);
            ("metadata", PDict [("file_id", PStr "kb")])]] /\
  exists out,
    Samples.format_results
      (PList [PList [PDict [("page_content", PStr "a  b"); ("metadata", PNone)]; PInt 2];
              PInt 7;
              PDict [("content", PStr "c"); ("page_content", PInt 0);
                     ("metadata", PDict [("file_id", PStr "kb")])]]) = Ok out.
Proof.
  assert (H : Forall (RagSearch.renderable Samples.int_3f)
                [PList [PDict [("page_content", PStr "a  b"); ("metadata", PNone)]; PInt 2];
                 PInt 7;
                 PDict [("content", PStr "c"); ("page_content", PInt 0);
                        ("metadata", PDict [("file_id", PStr "kb")])]]).
  { repeat constructor. simpl. eexists; reflexivity. }
  split; [exact H|].
  exact (format_results_total_on_plain Samples.float_3f Samples.int_3f Samples.str_other
           Samples.shorten _ H).
Defined.

Section UploadRequest.

Import Documents.

Variable jwt_encode : jwt_payload -> string -> string -> result string.

(** X19.  The upload request is a POST to [<base>/embed] without a JSON
    body.  Its form carries the normalized identifier under [file_id],
    and [entity_id] exactly when the explicit value or, failing that,
    the configured one is a non-empty string (the explicit one first).
    Its single file part carries the name and bytes of the upload, and
    [application/octet-stream] when the upload has no content type. *)
Theorem upload_request_fields (settings : Settings) (now : Z) (uuid4 : N)
    (file : UploadFile) (file_id entity_id : option string) (req : request) :
  endpoint_request jwt_encode settings now uuid4 (Upload file file_id entity_id) = Ok req ->
  req_method req = "POST" /\
  req_url req = str_rstrip_char "/" (RAG_BASE_URL settings) ++ "/embed" /\
  req_json req = None /\
  exists data part,
    req_data req = Some data /\ req_files req = Some [("file", part)] /\
    assoc_get data "file_id" = Some (_normalize_file_id settings uuid4 file_id) /\
    assoc_get data "entity_id" =
      (if opt_truthy entity_id then entity_id
       else if opt_truthy (RAG_ENTITY_ID settings) then RAG_ENTITY_ID settings
       else None) /\
    part_filename part = filename file /\ part_bytes part = file_bytes file /\
    part_content_type part <> "" /\
    (opt_truthy (file_content_type file) = false ->
     part_content_type part = "application/octet-stream") /\
    (forall ct, file_content_type file = Some ct -> ct <> "" -> part_content_type part = ct).
Proof.
  intros Hreq. apply endpoint_request_headers in Hreq as (headers & _ & ->).
  cbn [rag_request_of req_method req_url req_json req_data req_files].
  do 3 (split; [reflexivity|]).
  eexists _, _. split; [reflexivity|]. split; [reflexivity|].
  cbn [part_filename part_bytes part_content_type].
  split; [reflexivity|]. split.
  - unfold upload_payload, opt_or. cbn [assoc_get String.eqb Ascii.eqb Bool.eqb].
    destruct entity_id as [[|c e]|]; simpl;
      destruct (RAG_ENTITY_ID settings) as [[|c' e']|]; reflexivity.
  - do 2 (split; [reflexivity|]). unfold or_default.
    destruct (file_content_type file) as [[|c ct]|]; simpl;
      repeat split; try discriminate; try congruence.
Qed.

End UploadRequest.

Lemma upload_request_fields_witness :
  Documents.endpoint_request Samples.encode Samples.settings 0 7
    (Documents.Upload Samples.upload (Some " My Notes ") (Some "acme"))
    = Ok Samples.upload_request /\
  req_method Samples.upload_request = "POST" /\
  req_url Samples.upload_request = "http://rag:8000/embed" /\
  req_json Samples.upload_request = None.
Proof.
  split; [reflexivity|].
  destruct (upload_request_fields Samples.encode Samples.settings 0 7 Samples.upload
              (Some " My Notes ") (Some "acme") Samples.upload_request eq_refl)
    as (Hmethod & Hurl & Hjson & _).
  split; [exact Hmethod|]. split; [exact Hurl | exact Hjson].
Defined.

Section ComposePayload.

Import RagSearch.

(** X20.  [_compose_payload] raises [IndexError] on the empty list of
    identifiers and on nothing else.  On a non-empty list the payload
    holds, in this order, [query], [k], then [file_id] or [file_ids],
    then [entity_id] when there is one. *)
Theorem compose_payload_total_on_nonempty (self : RAGSearchTool) (query : string)
    (file_ids : list string) (top_k : Z) (entity_id : option string) :
  (file_ids = [] ->
   _compose_payload self query file_ids top_k entity_id = Raise IndexError) /\
  (file_ids <> [] ->
   exists endpoint payload,
     _compose_payload self query file_ids top_k entity_id = Ok (endpoint, payload) /\
     (endpoint = _query_endpoint self \/ endpoint = _query_multiple_endpoint self) /\
     (map fst payload = ["query"; "k"; "file_id"] \/
      map fst payload = ["query"; "k"; "file_id"; "entity_id"] \/
      map fst payload = ["query"; "k"; "file_ids"] \/
      map fst payload = ["query"; "k"; "file_ids"; "entity_id"])).
Proof.
  split.
  - now intros ->.
  - destruct file_ids as [|fid rest]; [congruence|]. intros _.
    rewrite compose_payload_nonempty. eexists _, _. split; [reflexivity|].
    unfold endpoint_of, payload_of. split.
    + destruct rest; auto.
    + destruct rest; destruct (opt_or entity_id (_entity_id self)) as [e|];
        try destruct (str_truthy e); simpl; auto.
Qed.

End ComposePayload.

Lemma compose_payload_total_on_nonempty_witness :
  ["a"; "b"] <> [] /\
  RagSearch._compose_payload Samples.tool "hello" ["a"; "b"] 3 (Some "acme")
    = Ok ("/query_multiple",
          [("query", PStr "hello"); ("k", PInt 3);
           ("file_ids", PList [PStr "a"; PStr "b"]); ("entity_id", PStr "acme")]) /\
  exists endpoint payload,
    RagSearch._compose_payload Samples.tool "hello" ["a"; "b"] 3 (Some "acme")
      = Ok (endpoint, payload).
Proof.
  split; [discriminate|]. split; [reflexivity|].
  destruct (proj2 (compose_payload_total_on_nonempty Samples.tool "hello" ["a"; "b"] 3
                     (Some "acme")) ltac:(discriminate))
    as (endpoint & payload & H & _).
  now exists endpoint, payload.
Defined.
